(** * Statistics Toolkit CLI: descriptive statistics and the one-sample t-test

    A shallow embedding of [stats_cli.py] (classes [StatResult],
    [DescriptiveStats] and [HypothesisTests]) and the properties its
    specification states about them.

    Numbers.  The program computes on float64 values.  They are modelled as
    exact real numbers extended with the three IEEE special values, so that
    the results of [0/0], [x/0] and operations on them are kept, while
    rounding and overflow are left out: a finite result here is the exact
    value the program approximates.  A sample holds finite numbers.  A
    property that rests on the exact value of a computed number is a
    property of the program computed without rounding or overflow.  Where
    rounding decides a property, the arithmetic of the program is replayed
    on binary64 numbers in module [F64].

    Libraries.  The numpy reductions the program calls ([np.sum], [np.mean],
    [np.var], [np.std], [np.sort], [np.median], [np.unique], [np.max],
    [np.min], [np.percentile]) are written out after their documented
    behaviour.  The Student t distribution of scipy and the conversion of
    floats to text are parameters of the development. *)

From Stdlib Require Import PrimFloat Uint63.
From Stdlib Require Import Reals Lra Lia ZifyNat List String ZArith Bool.
From Stdlib Require Import Sorting.Sorted Sorting.Permutation DecimalString.
Import ListNotations.

(** ** Float values *)

Inductive fl : Type :=
| Num (r : R)
| PInf
| NInf
| NaN.

Definition Rltb (x y : R) : bool := if Rlt_dec x y then true else false.
Definition Rleb (x y : R) : bool := if Rle_dec x y then true else false.
Definition Reqb (x y : R) : bool := if Req_dec_T x y then true else false.

Module Float.

(** The infinity with the sign of [x]; [0 * inf] and [0 / 0] are NaN. *)
Definition inf_of_sign (x : R) : fl :=
  if Rlt_dec 0 x then PInf else if Rlt_dec x 0 then NInf else NaN.

Definition neg (a : fl) : fl :=
  match a with
  | Num x => Num (- x)
  | PInf => NInf
  | NInf => PInf
  | NaN => NaN
  end.

Definition add (a b : fl) : fl :=
  match a, b with
  | NaN, _ | _, NaN => NaN
  | Num x, Num y => Num (x + y)
  | PInf, NInf | NInf, PInf => NaN
  | PInf, _ | _, PInf => PInf
  | NInf, _ | _, NInf => NInf
  end.

Definition sub (a b : fl) : fl := add a (neg b).

Definition mul (a b : fl) : fl :=
  match a, b with
  | NaN, _ | _, NaN => NaN
  | Num x, Num y => Num (x * y)
  | Num x, PInf | PInf, Num x => inf_of_sign x
  | Num x, NInf | NInf, Num x => neg (inf_of_sign x)
  | PInf, PInf | NInf, NInf => PInf
  | PInf, NInf | NInf, PInf => NInf
  end.

(** Division of numpy scalars and arrays: a zero divisor gives an infinity
    or NaN (with a warning), never an exception.  The zero divisors of
    this program are non-negative zeros. *)
Definition div (a b : fl) : fl :=
  match a, b with
  | NaN, _ | _, NaN => NaN
  | Num x, Num y => if Req_dec_T y 0 then inf_of_sign x else Num (x / y)
  | Num _, PInf | Num _, NInf => Num 0
  | PInf, Num y => if Rlt_dec y 0 then NInf else PInf
  | NInf, Num y => if Rlt_dec y 0 then PInf else NInf
  | PInf, PInf | PInf, NInf | NInf, PInf | NInf, NInf => NaN
  end.

Definition sqrt (a : fl) : fl :=
  match a with
  | Num x => if Rlt_dec x 0 then NaN else Num (R_sqrt.sqrt x)
  | PInf => PInf
  | NInf | NaN => NaN
  end.

Definition abs (a : fl) : fl :=
  match a with
  | Num x => Num (Rabs x)
  | PInf | NInf => PInf
  | NaN => NaN
  end.

(** [a < b]: false as soon as one side is NaN. *)
Definition ltb (a b : fl) : bool :=
  match a, b with
  | NaN, _ | _, NaN => false
  | Num x, Num y => Rltb x y
  | Num _, PInf => true
  | Num _, NInf => false
  | PInf, _ => false
  | NInf, NInf => false
  | NInf, _ => true
  end.

(** The order [ltb] decides. *)
Definition lt (a b : fl) : Prop :=
  match a, b with
  | Num x, Num y => (x < y)%R
  | Num _, PInf | NInf, Num _ | NInf, PInf => True
  | _, _ => False
  end.

Definition of_nat (n : nat) : fl := Num (INR n).

Definition is_finite (a : fl) : bool :=
  match a with Num _ => true | _ => false end.

End Float.

(** ** Exceptions and printed output *)

Inductive exn : Type :=
| ValueError
| IndexError.

Inductive result (A : Type) : Type :=
| Ok (a : A)
| Raise (e : exn).

Arguments Ok {A} a.
Arguments Raise {A} e.

(** A computation prints lines and then returns or raises; the lines printed
    before an exception stay printed. *)
Definition io (A : Type) : Type := (list string * result A)%type.

Definition ret {A} (a : A) : io A := ([], Ok a).
Definition raise {A} (e : exn) : io A := ([], Raise e).
Definition print (s : string) : io unit := ([s], Ok tt).
Definition lift {A} (r : result A) : io A := ([], r).

Definition bind {A B} (m : io A) (f : A -> io B) : io B :=
  match m with
  | (out, Ok a) => let (out', r) := f a in (out ++ out', r)
  | (out, Raise e) => (out, Raise e)
  end.

Definition output {A} (m : io A) : list string := fst m.
Definition outcome {A} (m : io A) : result A := snd m.

Declare Scope io_scope.
Delimit Scope io_scope with io.
Notation "x <- m ;; k" := (bind m (fun x => k))
  (at level 61, m at next level, right associativity) : io_scope.
Notation "m ;; k" := (bind m (fun _ => k))
  (at level 61, right associativity) : io_scope.

(** [if show_steps: ...] *)
Definition when_ (b : bool) (m : io unit) : io unit := if b then m else ret tt.

(** ** numpy *)

Module np.

Definition len {A} (l : list A) : nat := List.length l.

Definition sum (a : list fl) : fl := fold_left Float.add a (Num 0).

Definition array (data : list R) : list fl := map Num data.

(** [np.mean]: the sum over the number of elements; NaN on an empty
    array. *)
Definition mean (data : list R) : fl :=
  Float.div (sum (array data)) (Float.of_nat (len data)).

(** [np.var(a, ddof)]: squared deviations from the mean summed and
    divided by [max(n - ddof, 0)]. *)
Definition var (data : list R) (ddof : nat) : fl :=
  let arrmean := mean data in
  let x := map (fun a => Float.sub a arrmean) (array data) in
  let x2 := map (fun d => Float.mul d d) x in
  Float.div (sum x2) (Float.of_nat (len data - ddof)).

Definition std (data : list R) (ddof : nat) : fl := Float.sqrt (var data ddof).

Fixpoint insert (x : R) (l : list R) : list R :=
  match l with
  | [] => [x]
  | y :: t => if Rleb x y then x :: l else y :: insert x t
  end.

(** [np.sort]: the elements in ascending order. *)
Definition sort (data : list R) : list R := fold_right insert [] data.

(** [np.max], [np.min]: a [ValueError] on an empty array. *)
Definition max (data : list R) : result R :=
  match data with
  | [] => Raise ValueError
  | x :: t => Ok (fold_left Rmax t x)
  end.

Definition min (data : list R) : result R :=
  match data with
  | [] => Raise ValueError
  | x :: t => Ok (fold_left Rmin t x)
  end.

Definition max_count (counts : list nat) : result nat :=
  match counts with
  | [] => Raise ValueError
  | c :: t => Ok (fold_left Nat.max t c)
  end.

(** [np.median]: the mean of the one or two middle elements of the sorted
    array; NaN on an empty array. *)
Definition median (data : list R) : fl :=
  let n := len data in
  let s := sort data in
  if Nat.eqb n 0 then NaN
  else if Nat.even n
       then Float.div (Float.add (Num (nth (n / 2 - 1) s 0%R)) (Num (nth (n / 2) s 0%R)))
                      (Float.of_nat 2)
       else Float.div (Num (nth (n / 2) s 0%R)) (Float.of_nat 1).

(** Runs of equal neighbours of a sorted array, with their lengths. *)
Fixpoint runs (l : list R) : list (R * nat) :=
  match l with
  | [] => []
  | x :: t =>
      match runs t with
      | (y, c) :: r => if Reqb x y then (y, S c) :: r else (x, 1) :: (y, c) :: r
      | [] => [(x, 1)]
      end
  end.

(** [np.unique(a, return_counts=True)]: the sorted distinct values, each
    with its number of occurrences. *)
Definition unique (data : list R) : list (R * nat) := runs (sort data).

(** [np.percentile(a, p)], linear method: position [p/100 * (n-1)] in the
    sorted array, interpolating between the two neighbours.  [p] is 25, 50
    or 75 here, so the position is computed without rounding.  numpy
    evaluates the interpolation as [lo + (hi - lo) * g] below the middle
    of the interval and as [hi - (hi - lo) * (1 - g)] from the middle on:
    one value on exact reals, two roundings on float64.  An empty
    array has no element to index: numpy 1.22 and later raise [IndexError]
    (earlier versions return NaN, and the [np.min] that follows in
    [five_number_summary] raises [ValueError] instead). *)
Definition percentile (data : list R) (p : nat) : result fl :=
  let n := len data in
  let s := sort data in
  match n with
  | O => Raise IndexError
  | S m =>
      let j := (p * m / 100)%nat in
      let g := (INR ((p * m) mod 100) / 100)%R in
      let lo := nth j s 0%R in
      let hi := nth (Nat.min (S j) m) s 0%R in
      Ok (Num (lo + (hi - lo) * g))
  end.

End np.

(** ** Text *)

(** Conversions of floats to text, as Python and numpy do them: [str(x)],
    the fixed-point formats [{x:.4f}] and [{x:.6f}], and [str] of an
    array. *)
Record text : Type := {
  str_float : fl -> string;
  fixed : nat -> fl -> string;
  str_array : list fl -> string
}.

Definition str_nat (n : nat) : string := NilEmpty.string_of_uint (Nat.to_uint n).
Definition str_int (z : Z) : string := NilZero.string_of_int (Z.to_int z).

Definition nl : string := String (Ascii.ascii_of_nat 10) EmptyString.

(** [a[i]] on a Python sequence: a negative index counts from the end, an
    index outside the sequence raises [IndexError]. *)
Definition getitem (a : list R) (i : Z) : result R :=
  let n := Z.of_nat (np.len a) in
  let j := if (i <? 0)%Z then (i + n)%Z else i in
  if ((0 <=? j) && (j <? n))%Z then Ok (nth (Z.to_nat j) a 0%R) else Raise IndexError.

(** ** Results *)

(** The dataclass [StatResult]; the optional fields default to [None]. *)
Record StatResult : Type := {
  test_name : string;
  statistic : fl;
  p_value : fl;
  critical_value : option fl;
  confidence_interval : option (fl * fl);
  interpretation : string;
  steps : option (list string)
}.

Module Center.
Record t : Type := { mean : fl; median : fl; mode : list R; n : nat }.
End Center.

Module Spread.
Record t : Type :=
  { variance : fl; std_dev : fl; range : fl; min : fl; max : fl }.
End Spread.

Module FiveNumber.
Record t : Type := {
  min : fl; q1 : fl; median : fl; q3 : fl; max : fl; iqr : fl;
  outliers : list R; lower_fence : fl; upper_fence : fl
}.
End FiveNumber.

Open Scope string_scope.
Open Scope io_scope.

(** ** Descriptive statistics *)

Module DescriptiveStats.
Section WithText.

Variable T : text.

Let str := str_float T.
Let f4 := fixed T 4.
Let arr := str_array T.

(** [values[counts == max_count]] *)
Definition select_modes (uc : list (R * nat)) (max_count : nat) : list R :=
  map fst (filter (fun vc => Nat.eqb (snd vc) max_count) uc).

Definition measures_of_center (data : list R) (show_steps : bool) : io Center.t :=
  let n := np.len data in
  when_ show_steps (
    print (nl ++ "=== MEASURES OF CENTER ===") ;;
    print ("Sample size: n = " ++ str_nat n) ;;
    print ("Data: " ++ arr (np.array data))) ;;
  let data_sum := np.sum (np.array data) in
  let mean := np.mean data in
  when_ show_steps (
    print (nl ++ "MEAN CALCULATION:") ;;
    print ("x̄ = Σx/n = " ++ str data_sum ++ "/" ++ str_nat n ++ " = " ++ f4 mean)) ;;
  let sorted_data := np.sort data in
  let median := np.median data in
  when_ show_steps (
    print (nl ++ "MEDIAN CALCULATION:") ;;
    print ("Sorted data: " ++ arr (np.array sorted_data)) ;;
    if Nat.eqb (n mod 2) 0 then
      mid1 <- lift (getitem sorted_data (Z.of_nat n / 2 - 1)) ;;
      mid2 <- lift (getitem sorted_data (Z.of_nat n / 2)) ;;
      print ("n is even: median = (" ++ str (Num mid1) ++ " + " ++ str (Num mid2)
             ++ ")/2 = " ++ f4 median)
    else
      mid <- lift (getitem sorted_data (Z.of_nat n / 2)) ;;
      print ("n is odd: median = " ++ f4 (Num mid))) ;;
  let uc := np.unique data in
  let values := map fst uc in
  let counts := map snd uc in
  max_count <- lift (np.max_count counts) ;;
  let modes := select_modes uc max_count in
  when_ show_steps (
    print (nl ++ "MODE:") ;;
    if Nat.eqb (np.len modes) 1 then
      m0 <- lift (getitem modes 0) ;;
      print ("Mode = " ++ f4 (Num m0) ++ " (appears " ++ str_nat max_count ++ " times)")
    else if Nat.eqb (np.len modes) (np.len data) then
      print "No mode (all values appear once)"
    else
      print ("Modes = " ++ arr (np.array modes) ++ " (each appears "
             ++ str_nat max_count ++ " times)")) ;;
  ret {| Center.mean := mean; Center.median := median;
         Center.mode := modes; Center.n := n |}.

Definition measures_of_spread (data : list R) (show_steps : bool) : io Spread.t :=
  let n := np.len data in
  let mean := np.mean data in
  when_ show_steps (
    print (nl ++ "=== MEASURES OF SPREAD ===") ;;
    print ("Data: " ++ arr (np.array data)) ;;
    print ("Mean: x̄ = " ++ f4 mean)) ;;
  let deviations := map (fun x => Float.sub x mean) (np.array data) in
  let squared_deviations := map (fun d => Float.mul d d) deviations in
  let sum_squared_dev := np.sum squared_deviations in
  let variance := np.var data 1 in
  let std_dev := np.std data 1 in
  when_ show_steps (
    print (nl ++ "VARIANCE CALCULATION:") ;;
    print ("Deviations from mean: " ++ arr deviations) ;;
    print ("Squared deviations: " ++ arr squared_deviations) ;;
    print ("Σ(x - x̄)² = " ++ f4 sum_squared_dev) ;;
    print ("s² = Σ(x - x̄)²/(n-1) = " ++ f4 sum_squared_dev ++ "/"
           ++ str_int (Z.of_nat n - 1) ++ " = " ++ f4 variance) ;;
    print (nl ++ "STANDARD DEVIATION:") ;;
    print ("s = √(s²) = √" ++ f4 variance ++ " = " ++ f4 std_dev)) ;;
  hi <- lift (np.max data) ;;
  lo <- lift (np.min data) ;;
  let data_range := Float.sub (Num hi) (Num lo) in
  when_ show_steps (
    print (nl ++ "RANGE:") ;;
    print ("Range = max - min = " ++ f4 (Num hi) ++ " - " ++ f4 (Num lo)
           ++ " = " ++ f4 data_range)) ;;
  ret {| Spread.variance := variance; Spread.std_dev := std_dev;
         Spread.range := data_range;
         Spread.min := Num lo; Spread.max := Num hi |}.

(** [(data < lower_fence) | (data > upper_fence)] *)
Definition outside (lower_fence upper_fence : fl) (x : R) : bool :=
  Float.ltb (Num x) lower_fence || Float.ltb upper_fence (Num x).

Definition five_number_summary (data : list R) (show_steps : bool) : io FiveNumber.t :=
  let sorted_data := np.sort data in
  q1 <- lift (np.percentile data 25) ;;
  median <- lift (np.percentile data 50) ;;
  q3 <- lift (np.percentile data 75) ;;
  let iqr := Float.sub q3 q1 in
  when_ show_steps (
    print (nl ++ "=== FIVE-NUMBER SUMMARY ===") ;;
    print ("Sorted data: " ++ arr (np.array sorted_data)) ;;
    lo <- lift (np.min data) ;;
    print ("Min = " ++ f4 (Num lo)) ;;
    print ("Q1 = " ++ f4 q1) ;;
    print ("Median = " ++ f4 median) ;;
    print ("Q3 = " ++ f4 q3) ;;
    hi <- lift (np.max data) ;;
    print ("Max = " ++ f4 (Num hi)) ;;
    print (nl ++ "IQR = Q3 - Q1 = " ++ f4 q3 ++ " - " ++ f4 q1 ++ " = " ++ f4 iqr)) ;;
  let lower_fence := Float.sub q1 (Float.mul (Num 1.5) iqr) in
  let upper_fence := Float.add q3 (Float.mul (Num 1.5) iqr) in
  let outliers := filter (outside lower_fence upper_fence) data in
  when_ show_steps (
    print (nl ++ "OUTLIER DETECTION:") ;;
    print ("Lower fence = Q1 - 1.5×IQR = " ++ f4 q1 ++ " - 1.5×" ++ f4 iqr
           ++ " = " ++ f4 lower_fence) ;;
    print ("Upper fence = Q3 + 1.5×IQR = " ++ f4 q3 ++ " + 1.5×" ++ f4 iqr
           ++ " = " ++ f4 upper_fence) ;;
    if (0 <? np.len outliers)%nat then print ("Outliers: " ++ arr (np.array outliers))
    else print "No outliers detected") ;;
  lo <- lift (np.min data) ;;
  hi <- lift (np.max data) ;;
  ret {| FiveNumber.min := Num lo; FiveNumber.q1 := q1;
         FiveNumber.median := median; FiveNumber.q3 := q3;
         FiveNumber.max := Num hi; FiveNumber.iqr := iqr;
         FiveNumber.outliers := outliers;
         FiveNumber.lower_fence := lower_fence;
         FiveNumber.upper_fence := upper_fence |}.

End WithText.
End DescriptiveStats.

(** ** Hypothesis testing *)

Module HypothesisTests.
Section WithScipy.

Variable T : text.

(** [stats.t.cdf(x, df)] and [stats.t.ppf(q, df)] of scipy. *)
Variable t_cdf : fl -> Z -> fl.
Variable t_ppf : fl -> Z -> fl.

Let str := str_float T.
Let f4 := fixed T 4.
Let f6 := fixed T 6.

Definition one_sample_t_test (data : list R) (mu0 alpha : fl)
    (alternative : string) (show_steps : bool) : io StatResult :=
  let n := np.len data in
  let sample_mean := np.mean data in
  let sample_std := np.std data 1 in
  when_ show_steps (
    print (nl ++ "=== ONE-SAMPLE T-TEST ===") ;;
    print ("Sample size: n = " ++ str_nat n) ;;
    print ("Sample mean: x̄ = " ++ f4 sample_mean) ;;
    print ("Sample std dev: s = " ++ f4 sample_std) ;;
    print ("Hypothesized mean: μ₀ = " ++ str mu0) ;;
    print ("Significance level: α = " ++ str alpha)) ;;
  when_ show_steps (
    print (nl ++ "STEP 1: HYPOTHESES") ;;
    print ("H₀: μ = " ++ str mu0) ;;
    if alternative =? "two-sided" then print ("H₁: μ ≠ " ++ str mu0)
    else if alternative =? "greater" then print ("H₁: μ > " ++ str mu0)
    else print ("H₁: μ < " ++ str mu0)) ;;
  let t_stat :=
    Float.div (Float.sub sample_mean mu0)
              (Float.div sample_std (Float.sqrt (Float.of_nat n))) in
  let df := (Z.of_nat n - 1)%Z in
  when_ show_steps (
    print (nl ++ "STEP 2: TEST STATISTIC") ;;
    print "t = (x̄ - μ₀)/(s/√n)" ;;
    print ("t = (" ++ f4 sample_mean ++ " - " ++ str mu0 ++ ")/(" ++ f4 sample_std
           ++ "/√" ++ str_nat n ++ ")") ;;
    print ("t = " ++ f4 t_stat ++ " (df = " ++ str_int df ++ ")")) ;;
  let p_value :=
    if alternative =? "two-sided" then
      Float.mul (Num 2) (Float.sub (Num 1) (t_cdf (Float.abs t_stat) df))
    else if alternative =? "greater" then
      Float.sub (Num 1) (t_cdf t_stat df)
    else
      t_cdf t_stat df in
  let critical_value :=
    if alternative =? "two-sided" then
      t_ppf (Float.sub (Num 1) (Float.div alpha (Num 2))) df
    else
      t_ppf (Float.sub (Num 1) alpha) df in
  when_ show_steps (
    print (nl ++ "STEP 3: P-VALUE") ;;
    print ("P-value = " ++ f6 p_value) ;;
    print (if alternative =? "two-sided"
           then "Critical value = ±" ++ f4 critical_value
           else "Critical value = " ++ f4 critical_value)) ;;
  let reject_null := Float.ltb p_value alpha in
  when_ show_steps (
    print (nl ++ "STEP 4: DECISION") ;;
    print ("α = " ++ str alpha) ;;
    if reject_null then
      print ("P-value (" ++ f6 p_value ++ ") < α (" ++ str alpha ++ "): REJECT H₀") ;;
      print "Evidence suggests the mean is significantly different from the hypothesized value"
    else
      print ("P-value (" ++ f6 p_value ++ ") ≥ α (" ++ str alpha
             ++ "): FAIL TO REJECT H₀") ;;
      print "Insufficient evidence to conclude the mean differs from the hypothesized value") ;;
  let interpretation :=
    (if reject_null then "Reject" else "Fail to reject") ++ " H₀ at α = " ++ str alpha in
  ret {| test_name := "One-Sample t-test";
         statistic := t_stat;
         p_value := p_value;
         critical_value := Some critical_value;
         confidence_interval := None;
         interpretation := interpretation;
         steps := None |}.

End WithScipy.
End HypothesisTests.

(** ** Reference quantities

    What the specification names, on real numbers. *)

Open Scope R_scope.

Definition Rsum (l : list R) : R := fold_right Rplus 0 l.

(** The arithmetic average. *)
Definition Rmean (l : list R) : R := Rsum l / INR (np.len l).

Definition sq_dev (m : R) (l : list R) : list R :=
  map (fun x => (x - m) * (x - m)) l.

(** Bessel-corrected variance: the squared deviations from the mean, summed
    and divided by [n - 1]. *)
Definition sample_variance (data : list R) : R :=
  Rsum (sq_dev (Rmean data) data) / (INR (np.len data) - 1).

Definition sample_std (data : list R) : R := sqrt (sample_variance data).

(** A text conversion that prints nothing, to run the program on concrete
    samples. *)
Definition blank_text : text :=
  {| str_float := fun _ => EmptyString;
     fixed := fun _ _ => EmptyString;
     str_array := fun _ => EmptyString |}.

(** The t statistic: [(mean - mu0) / (s / sqrt n)] with [s] the
    Bessel-corrected standard deviation. *)
Definition t_formula (data : list R) (mu0 : R) : R :=
  (Rmean data - mu0) / (sample_std data / sqrt (INR (np.len data))).

(** The level at which the quantile function is read. *)
Definition critical_level (alpha : fl) (alternative : string) : fl :=
  if (alternative =? "two-sided")%string
  then Float.sub (Num 1) (Float.div alpha (Num 2))
  else Float.sub (Num 1) alpha.

(** Stand-ins for the scipy functions, to run the test on concrete samples
    where their values do not matter. *)
Definition half_cdf : fl -> Z -> fl := fun _ _ => Num (1 / 2).
Definition zero_ppf : fl -> Z -> fl := fun _ _ => Num 0.

Definition test_scores : list R := [85; 92; 78; 88; 95; 82; 79; 91; 87; 84].

(** Number of occurrences of a value in a sample. *)
Definition count (data : list R) (x : R) : nat := count_occ Req_dec_T data x.

Arguments count : simpl never.

(** [x] attains the maximum frequency of the sample. *)
Definition most_frequent (data : list R) (x : R) : Prop :=
  In x data /\ forall y, (count data y <= count data x)%nat.

(** The middle element of a sorted sample of odd size, the average of the
    two middle elements for an even size. *)
Definition middle (s : list R) : R :=
  let n := np.len s in
  if Nat.even n then (nth (n / 2 - 1) s 0 + nth (n / 2) s 0) / 2
  else nth (n / 2) s 0.

(** The line printed for a sample without a mode. *)
Definition no_mode_line : string := "No mode (all values appear once)".

(** The percentile by linear interpolation: the position [p/100 * (n-1)] in
    the sorted sample [s], split into its integer part [j] and fractional
    part [g], gives [s[j] + (s[j+1] - s[j]) * g]. *)
Definition linear_percentile (s : list R) (p : nat) : R :=
  let h := INR p / 100 * (INR (np.len s) - 1) in
  let j := Z.to_nat (Int_part h) in
  let g := frac_part h in
  nth j s 0 + (nth (S j) s 0 - nth j s 0) * g.

Definition quartile1 (s : list R) : R := linear_percentile s 25.
Definition quartile3 (s : list R) : R := linear_percentile s 75.
Definition interquartile (s : list R) : R := quartile3 s - quartile1 s.
Definition lower_bound (s : list R) : R := quartile1 s - 1.5 * interquartile s.
Definition upper_bound (s : list R) : R := quartile3 s + 1.5 * interquartile s.

(** Strictly outside [[lower, upper]]. *)
Definition beyond_fences (s : list R) (x : R) : Prop :=
  x < lower_bound s \/ upper_bound s < x.


(** The two conclusions the t-test prints with its decision. *)
Definition evidence_line : string :=
  "Evidence suggests the mean is significantly different from the hypothesized value".
Definition no_evidence_line : string :=
  "Insufficient evidence to conclude the mean differs from the hypothesized value".

(** A distribution function that, like scipy's, answers NaN to NaN. *)
Definition nan_cdf : fl -> Z -> fl :=
  fun x _ => match x with NaN => NaN | _ => Num (1 / 2) end.

(** ** Command line interface *)

(** ["=" * n] *)
Fixpoint str_mul (s : string) (n : nat) : string :=
  match n with
  | O => EmptyString
  | S k => (s ++ str_mul s k)%string
  end.

(** Exceptions of a console session: those of the computations, and the
    [EOFError] of [input] at the end of the input. *)
Inductive cli_exn : Type :=
| Computation (e : exn)
| EOFError.

Inductive reply (A : Type) : Type :=
| Return (a : A)
| Throw (e : cli_exn).

Arguments Return {A} a.
Arguments Throw {A} e.

(** A console computation reads lines of the standard input and writes to
    the standard output: it maps the lines still to be read to what is
    written, the lines left, and a value or an exception. *)
Definition console (A : Type) : Type :=
  list string -> (list string * list string * reply A)%type.

Definition cret {A} (a : A) : console A := fun stdin => ([], stdin, Return a).

Definition cbind {A B} (m : console A) (f : A -> console B) : console B :=
  fun stdin =>
    match m stdin with
    | (out, rest, Return a) =>
        match f a rest with
        | (out', rest', r) => ((out ++ out')%list, rest', r)
        end
    | (out, rest, Throw e) => (out, rest, Throw e)
    end.

Definition cprint (s : string) : console unit := fun stdin => ([s], stdin, Return tt).

(** [input(prompt)]: writes the prompt and reads one line. *)
Definition input (prompt : string) : console string :=
  fun stdin =>
    match stdin with
    | [] => ([prompt], [], Throw EOFError)
    | line :: rest => ([prompt], rest, Return line)
    end.

(** A computation that does not read the input. *)
Definition run {A} (m : io A) : console A :=
  fun stdin =>
    (fst m, stdin,
     match snd m with Ok a => Return a | Raise e => Throw (Computation e) end).

Declare Scope cli_scope.
Delimit Scope cli_scope with cli.
Notation "x <- m ;; k" := (cbind m (fun x => k))
  (at level 61, m at next level, right associativity) : cli_scope.
Notation "m ;; k" := (cbind m (fun _ => k))
  (at level 61, right associativity) : cli_scope.

Module StatsCLI.
Section WithEnvironment.

Variable T : text.
Variable t_cdf : fl -> Z -> fl.
Variable t_ppf : fl -> Z -> fl.

(** [str.strip] of Python. *)
Variable strip : string -> string.

(** [for i, name in enumerate(saved_data, i): print(f"{i}. {name}")] *)
Fixpoint print_numbered (i : nat) (names : list string) : console unit :=
  match names with
  | [] => cret tt
  | name :: rest =>
      (cprint (str_nat i ++ ". " ++ name)%string ;; print_numbered (S i) rest)%cli
  end.

(** [saved_data] is what [self.data_manager.list_saved_data()] returns when
    it is called. *)
Definition data_management_menu (saved_data : list string) : console unit :=
  (cprint (nl ++ "=== DATA MANAGEMENT ===")%string ;;
   cprint "1. List saved data" ;;
   cprint "2. Save current data" ;;
   cprint "3. Load saved data" ;;
   line <- input "Enter choice (1-3): " ;;
   let choice := strip line in
   if (choice =? "1")%string then
     match saved_data with
     | _ :: _ =>
         cprint "Saved datasets:" ;;
         print_numbered 1 saved_data
     | [] => cprint "No saved data found."
     end
   else cret tt)%cli.

(** [np.random.seed(42)] sets the state of a generator that nothing here
    reads.  The analyses run with their default [show_steps=True]. *)
Definition sample_data_demo : io unit :=
  (print (nl ++ "=== SAMPLE DATA DEMONSTRATION ===")%string ;;
   let test_scores := [85; 92; 78; 88; 95; 82; 79; 91; 87; 84] in
   print ("Using sample test scores: " ++ str_array T (np.array test_scores))%string ;;
   print (nl ++ "Running complete analysis...")%string ;;
   _ <- DescriptiveStats.measures_of_center T test_scores true ;;
   _ <- DescriptiveStats.measures_of_spread T test_scores true ;;
   _ <- DescriptiveStats.five_number_summary T test_scores true ;;
   print (nl ++ str_mul "=" 50)%string ;;
   print "HYPOTHESIS TEST EXAMPLE" ;;
   print "Testing if mean test score = 85" ;;
   print (str_mul "=" 50) ;;
   result <- HypothesisTests.one_sample_t_test T t_cdf t_ppf test_scores
               (Num 85) (Num 0.05) "two-sided" true ;;
   ret tt)%io.

End WithEnvironment.
End StatsCLI.

(** ** The quick test ([quick_test.py]) *)

Module QuickTest.
Section WithEnvironment.

Variable T : text.
Variable t_cdf : fl -> Z -> fl.
Variable t_ppf : fl -> Z -> fl.

(** The t-test is called with its defaults [alpha=0.05] and
    [alternative='two-sided']. *)
Definition test_basic_functionality : io unit :=
  (print "Testing Statistics Toolkit..." ;;
   let data := [85; 92; 78; 88; 95; 82; 79; 91; 87; 84] in
   print (nl ++ "1. Testing Descriptive Statistics:")%string ;;
   result <- DescriptiveStats.measures_of_center T data false ;;
   print ("   Mean: " ++ fixed T 2 (Center.mean result))%string ;;
   print ("   Median: " ++ fixed T 2 (Center.median result))%string ;;
   print (nl ++ "2. Testing Hypothesis Test:")%string ;;
   test_result <- HypothesisTests.one_sample_t_test T t_cdf t_ppf data (Num 85)
                    (Num 0.05) "two-sided" false ;;
   print ("   t-statistic: " ++ fixed T 4 (statistic test_result))%string ;;
   print ("   p-value: " ++ fixed T 6 (p_value test_result))%string ;;
   print (nl ++ "✅ All basic functionality working!")%string ;;
   print (nl ++ "Ready to use! Try:")%string ;;
   print "  python stats_cli.py")%io.

End WithEnvironment.
End QuickTest.

(** ** The arithmetic of the program on binary64 *)

(** The reductions behind [np.mean], [np.var] and [np.std] and the test
    statistic of [one_sample_t_test], on the binary64 numbers of the
    kernel, rounding as the program does.  The sample is a float64
    array. *)

Module F64.

Definition of_nat (n : nat) : float := PrimFloat.of_uint63 (Uint63.of_Z (Z.of_nat n)).

(** Eight running sums, each taking one value of every further block of
    eight. *)
Fixpoint add_blocks (k : nat) (r a : list float) : list float * list float :=
  match k with
  | O => (r, a)
  | S k' =>
      add_blocks k' (map (fun p => PrimFloat.add (fst p) (snd p)) (combine r (firstn 8 a)))
                 (skipn 8 a)
  end.

Definition combine8 (r : list float) : float :=
  match r with
  | [r0; r1; r2; r3; r4; r5; r6; r7] =>
      PrimFloat.add
        (PrimFloat.add (PrimFloat.add r0 r1) (PrimFloat.add r2 r3))
        (PrimFloat.add (PrimFloat.add r4 r5) (PrimFloat.add r6 r7))
  | _ => PrimFloat.nan
  end.

(** The pairwise summation of numpy: fewer than eight values are added
    from left to right; up to 128 values are added in eight running sums,
    combined at the end, the values past the last full block of eight
    added one by one; a longer array is split in two near its middle, at a
    multiple of eight.  Every call on more than 128 values halves the
    array, so the length of the array is fuel enough. *)
Fixpoint pairwise_sum (fuel : nat) (a : list float) : float :=
  let n := List.length a in
  if (n <? 8)%nat then fold_left PrimFloat.add a PrimFloat.neg_zero
  else if (n <=? 128)%nat then
    let (r, rest) := add_blocks (n / 8 - 1) (firstn 8 a) (skipn 8 a) in
    fold_left PrimFloat.add rest (combine8 r)
  else
    match fuel with
    | O => PrimFloat.nan
    | S fuel' =>
        let n2 := (n / 2 - (n / 2) mod 8)%nat in
        PrimFloat.add (pairwise_sum fuel' (firstn n2 a)) (pairwise_sum fuel' (skipn n2 a))
    end.

(** [np.sum]: the pairwise sum added to the initial value 0. *)
Definition sum (a : list float) : float :=
  PrimFloat.add PrimFloat.zero (pairwise_sum (List.length a) a).

Definition mean (a : list float) : float :=
  PrimFloat.div (sum a) (of_nat (List.length a)).

Definition var (a : list float) (ddof : nat) : float :=
  let arrmean := mean a in
  let x := map (fun v => PrimFloat.sub v arrmean) a in
  let x2 := map (fun d => PrimFloat.mul d d) x in
  PrimFloat.div (sum x2) (of_nat (List.length a - ddof)).

Definition std (a : list float) (ddof : nat) : float := PrimFloat.sqrt (var a ddof).

(** The entries [variance] and [std_dev] of [measures_of_spread]. *)
Definition variance (data : list float) : float := var data 1.
Definition std_dev (data : list float) : float := std data 1.

(** The statistic of [one_sample_t_test]. *)
Definition t_stat (data : list float) (mu0 : float) : float :=
  let n := List.length data in
  let sample_mean := mean data in
  let sample_std := std data 1 in
  PrimFloat.div (PrimFloat.sub sample_mean mu0)
                (PrimFloat.div sample_std (PrimFloat.sqrt (of_nat n))).

Definition is_finite (x : float) : bool :=
  PrimFloat.ltb (PrimFloat.abs x) PrimFloat.infinity.

(** The float64 that the text [0.1] is read as. *)
Definition tenth : float := 0x1.999999999999ap-4%float.

(** The sample of [sample_data_demo] and of the quick test, as float64. *)
Definition test_scores : list float :=
  [85; 92; 78; 88; 95; 82; 79; 91; 87; 84]%float.

End F64.

(** * Properties *)

(** ** Outcomes of computations *)

Section IoLemmas.
Context {A B : Type}.

Lemma outcome_bind (m : io A) (f : A -> io B) :
  outcome (bind m f) =
  match outcome m with Ok a => outcome (f a) | Raise e => Raise e end.
Proof.
  destruct m as [out [a|e]]; simpl; [|reflexivity].
  destruct (f a); reflexivity.
Qed.

Lemma outcome_lift (r : result A) : outcome (lift r) = r.
Proof. reflexivity. Qed.

Lemma outcome_ret (a : A) : outcome (ret a) = Ok a.
Proof. reflexivity. Qed.
End IoLemmas.

Lemma outcome_when (b : bool) (m : io unit) :
  (b = true -> outcome m = Ok tt) -> outcome (when_ b m) = Ok tt.
Proof. destruct b; simpl; auto. Qed.

Lemma outcome_then {A} (m : io unit) (k : io A) :
  outcome m = Ok tt -> outcome (bind m (fun _ => k)) = outcome k.
Proof. intros H. rewrite outcome_bind, H. reflexivity. Qed.

(** A block of prints returns. *)
Ltac io_ok :=
  repeat match goal with
         | |- context [if ?b then _ else _] => destruct b
         end;
  reflexivity.

Ltac skip_steps :=
  rewrite outcome_then by (apply outcome_when; intros _; io_ok).

(** ** Sums, mean and variance on finite values *)

Lemma fold_add_Num (l : list R) (a : R) :
  fold_left Float.add (map Num l) (Num a) = Num (a + Rsum l).
Proof.
  revert a; induction l as [|x l IH]; intros a; simpl.
  - f_equal; lra.
  - rewrite IH. f_equal; lra.
Qed.

Lemma sum_array (l : list R) : np.sum (np.array l) = Num (Rsum l).
Proof. unfold np.sum, np.array. rewrite fold_add_Num. f_equal; lra. Qed.

Lemma div_Num (x y : R) : y <> 0 -> Float.div (Num x) (Num y) = Num (x / y).
Proof. intros H. simpl. destruct (Req_dec_T y 0); [contradiction|reflexivity]. Qed.

Lemma INR_len_pos {X} (l : list X) : l <> [] -> 0 < INR (np.len l).
Proof.
  destruct l; [congruence|]. intros _. unfold np.len. apply lt_0_INR. simpl; lia.
Qed.

Lemma mean_Num (l : list R) : l <> [] -> np.mean l = Num (Rmean l).
Proof.
  intros H. unfold np.mean. rewrite sum_array. unfold Float.of_nat.
  apply div_Num. pose proof (INR_len_pos l H). lra.
Qed.

Lemma sq_dev_array (m : R) (l : list R) :
  map (fun d => Float.mul d d) (map (fun a => Float.sub a (Num m)) (np.array l))
  = np.array (sq_dev m l).
Proof.
  unfold np.array, sq_dev. rewrite !map_map. apply map_ext. intros a. simpl.
  f_equal.
Qed.

Lemma len_ge_2_nonempty {X} (l : list X) : (2 <= np.len l)%nat -> l <> [].
Proof. destruct l; simpl; [lia|congruence]. Qed.

Lemma var_Num (l : list R) :
  (2 <= np.len l)%nat -> np.var l 1 = Num (sample_variance l).
Proof.
  intros H. unfold np.var.
  rewrite mean_Num by (apply len_ge_2_nonempty; exact H).
  rewrite sq_dev_array, sum_array. unfold Float.of_nat, sample_variance.
  rewrite minus_INR by lia. apply div_Num.
  assert (2 <= INR (np.len l)) by (apply (le_INR 2); exact H). simpl; lra.
Qed.

Lemma Rsum_sq_dev_nonneg (m : R) (l : list R) : 0 <= Rsum (sq_dev m l).
Proof.
  induction l as [|x l IH]; simpl; [lra|].
  fold (sq_dev m l). fold (Rsum (sq_dev m l)).
  pose proof (Rle_0_sqr (x - m)) as Hs. unfold Rsqr in Hs. lra.
Qed.

Lemma sample_variance_nonneg (l : list R) :
  (2 <= np.len l)%nat -> 0 <= sample_variance l.
Proof.
  intros H. apply Rmult_le_pos; [apply Rsum_sq_dev_nonneg|].
  left. apply Rinv_0_lt_compat.
  assert (2 <= INR (np.len l)) by (apply (le_INR 2); exact H). lra.
Qed.

Lemma std_Num (l : list R) :
  (2 <= np.len l)%nat -> np.std l 1 = Num (sample_std l).
Proof.
  intros H. unfold np.std. rewrite var_Num by exact H. simpl.
  destruct (Rlt_dec _ 0) as [Hlt|_]; [|reflexivity].
  pose proof (sample_variance_nonneg l H). lra.
Qed.

Lemma sqrt_between (a b x : R) :
  0 <= a -> 0 <= b -> a * a < x -> x < b * b -> a < sqrt x < b.
Proof.
  intros Ha Hb Hax Hxb. split.
  - rewrite <- (sqrt_square a Ha). apply sqrt_lt_1; nra.
  - rewrite <- (sqrt_square b Hb). apply sqrt_lt_1; nra.
Qed.

(** Sizes of concrete samples as numerals. *)
Ltac inr_norm :=
  rewrite ?INR_IZR_INZ;
  cbn [np.len List.length Z.of_nat Pos.of_succ_nat Pos.succ].

(** ** Spread *)

Lemma spread_outcome T (data : list R) show x t :
  data = x :: t ->
  outcome (DescriptiveStats.measures_of_spread T data show) =
  Ok {| Spread.variance := np.var data 1;
        Spread.std_dev := np.std data 1;
        Spread.range := Float.sub (Num (fold_left Rmax t x)) (Num (fold_left Rmin t x));
        Spread.min := Num (fold_left Rmin t x);
        Spread.max := Num (fold_left Rmax t x) |}.
Proof.
  intros ->. unfold DescriptiveStats.measures_of_spread.
  skip_steps. skip_steps.
  rewrite outcome_bind, outcome_lift. cbn [np.max].
  rewrite outcome_bind, outcome_lift. cbn [np.min].
  skip_steps. reflexivity.
Qed.

Lemma example_variance : sample_variance [2;4;4;4;5;5;7;9] = 32 / 7.
Proof.
  unfold sample_variance, Rmean, sq_dev, Rsum. cbn [map fold_right].
  inr_norm. field.
Qed.

(** ** The t-test *)

Lemma t_test_outcome T cdf ppf (data : list R) (mu0 alpha : fl) alt show :
  let n := np.len data in
  let t := Float.div (Float.sub (np.mean data) mu0)
                     (Float.div (np.std data 1) (Float.sqrt (Float.of_nat n))) in
  let df := (Z.of_nat n - 1)%Z in
  let p := if (alt =? "two-sided")%string
           then Float.mul (Num 2) (Float.sub (Num 1) (cdf (Float.abs t) df))
           else if (alt =? "greater")%string
                then Float.sub (Num 1) (cdf t df)
                else cdf t df in
  outcome (HypothesisTests.one_sample_t_test T cdf ppf data mu0 alpha alt show) =
  Ok {| test_name := "One-Sample t-test";
        statistic := t;
        p_value := p;
        critical_value := Some (ppf (critical_level alpha alt) df);
        confidence_interval := None;
        interpretation :=
          ((if Float.ltb p alpha then "Reject" else "Fail to reject")
             ++ " H₀ at α = " ++ str_float T alpha)%string;
        steps := None |}.
Proof.
  intros n t df p. unfold HypothesisTests.one_sample_t_test.
  do 5 skip_steps.
  unfold critical_level, p, t, df, n.
  destruct (alt =? "two-sided")%string; reflexivity.
Qed.

Lemma sqrt_INR_pos (n : nat) : (1 <= n)%nat -> 0 < sqrt (INR n).
Proof. intros H. apply sqrt_lt_R0. apply lt_0_INR. lia. Qed.

Lemma sqrt_Num (n : nat) : Float.sqrt (Float.of_nat n) = Num (sqrt (INR n)).
Proof.
  unfold Float.of_nat. simpl. destruct (Rlt_dec (INR n) 0) as [H|_]; [|reflexivity].
  pose proof (pos_INR n). lra.
Qed.

Lemma t_stat_Num (data : list R) (mu0 : R) :
  (2 <= np.len data)%nat -> sample_std data <> 0 ->
  Float.div (Float.sub (np.mean data) (Num mu0))
            (Float.div (np.std data 1) (Float.sqrt (Float.of_nat (np.len data))))
  = Num (t_formula data mu0).
Proof.
  intros Hn Hs.
  rewrite mean_Num by (apply len_ge_2_nonempty; exact Hn).
  rewrite std_Num by exact Hn. rewrite sqrt_Num.
  assert (Hq : 0 < sqrt (INR (np.len data))) by (apply sqrt_INR_pos; lia).
  rewrite div_Num by lra.
  change (Float.sub (Num (Rmean data)) (Num mu0)) with (Num (Rmean data + - mu0)).
  rewrite div_Num.
  - unfold t_formula. f_equal.
  - intros H0. apply Hs.
    apply Rmult_eq_reg_r with (/ sqrt (INR (np.len data))).
    + rewrite Rmult_0_l. exact H0.
    + apply Rinv_neq_0_compat. lra.
Qed.

Lemma ratio_bounds (a s r lo hi : R) :
  0 < s -> 0 < r -> lo * s < a * r -> a * r < hi * s -> lo < a / (s / r) < hi.
Proof.
  intros Hs Hr H1 H2.
  replace (a / (s / r)) with (a * r / s) by (field; lra).
  split; apply Rmult_lt_reg_r with s; try lra;
    unfold Rdiv; rewrite Rmult_assoc, Rinv_l by lra; lra.
Qed.

Lemma test_scores_mean : Rmean test_scores = 861 / 10.
Proof.
  unfold Rmean, Rsum, test_scores. cbn [fold_right]. inr_norm. field.
Qed.

Lemma test_scores_variance : sample_variance test_scores = 2809 / 90.
Proof.
  unfold sample_variance. rewrite test_scores_mean.
  unfold sq_dev, Rsum, test_scores. cbn [map fold_right]. inr_norm. field.
Qed.

Lemma test_scores_t : 0.6226 < t_formula test_scores 85 < 0.6227.
Proof.
  unfold t_formula, sample_std. rewrite test_scores_mean, test_scores_variance.
  replace (INR (np.len test_scores)) with 10
    by (unfold test_scores; inr_norm; reflexivity).
  destruct (sqrt_between 5.58669 5.58670 (2809 / 90)) as [S1 S2]; try lra.
  destruct (sqrt_between 3.162277 3.162278 10) as [R1 R2]; try lra.
  apply ratio_bounds; lra.
Qed.

Lemma ltb_lt (a b : fl) : Float.ltb a b = true <-> Float.lt a b.
Proof.
  destruct a, b; simpl; try tauto; try (split; [discriminate|contradiction]).
  unfold Rltb. destruct (Rlt_dec r r0); split; auto; discriminate.
Qed.

Lemma ltb_not_lt (a b : fl) : Float.ltb a b = false <-> ~ Float.lt a b.
Proof.
  rewrite <- ltb_lt. destruct (Float.ltb a b); split; congruence.
Qed.

(** ** Degenerate samples *)

Lemma inf_of_sign_0 (x : R) : x = 0 -> Float.inf_of_sign x = NaN.
Proof.
  intros ->. unfold Float.inf_of_sign.
  destruct (Rlt_dec 0 0); [lra|reflexivity].
Qed.

Lemma div_zero (x y : R) : y = 0 -> Float.div (Num x) (Num y) = Float.inf_of_sign x.
Proof. intros ->. simpl. destruct (Req_dec_T 0 0); [reflexivity|congruence]. Qed.

Lemma mean_empty : np.mean [] = NaN.
Proof.
  unfold np.mean, np.sum, Float.of_nat. simpl fold_left. simpl INR.
  rewrite div_zero by reflexivity. apply inf_of_sign_0. reflexivity.
Qed.

Lemma var_singleton (x : R) : np.var [x] 1 = NaN.
Proof.
  unfold np.var. rewrite mean_Num by congruence.
  rewrite sq_dev_array, sum_array. unfold Float.of_nat.
  rewrite div_zero by reflexivity.
  apply inf_of_sign_0. unfold Rmean, Rsum, sq_dev. simpl. field.
Qed.

Lemma Rsum_repeat (c : R) (n : nat) : Rsum (repeat c n) = INR n * c.
Proof.
  induction n as [|n IH]; [simpl; lra|].
  rewrite S_INR. simpl repeat. simpl Rsum. fold (Rsum (repeat c n)). rewrite IH. lra.
Qed.

Lemma Rmean_repeat (c : R) (n : nat) : (1 <= n)%nat -> Rmean (repeat c n) = c.
Proof.
  intros H. unfold Rmean, np.len. rewrite Rsum_repeat, repeat_length.
  field. apply not_0_INR. lia.
Qed.

Lemma Rsum_sq_dev_repeat (c : R) (n : nat) : Rsum (sq_dev c (repeat c n)) = 0.
Proof.
  induction n as [|n IH]; [reflexivity|].
  simpl. fold (sq_dev c (repeat c n)). fold (Rsum (sq_dev c (repeat c n))).
  rewrite IH. lra.
Qed.

Lemma sample_variance_repeat (c : R) (n : nat) :
  (1 <= n)%nat -> sample_variance (repeat c n) = 0.
Proof.
  intros H. unfold sample_variance. rewrite Rmean_repeat by exact H.
  rewrite Rsum_sq_dev_repeat. unfold Rdiv. apply Rmult_0_l.
Qed.

Lemma constant_mean_std (c : R) (k : nat) :
  let data := repeat c (S (S k)) in
  np.mean data = Num c /\ np.std data 1 = Num 0.
Proof.
  intros data.
  assert (Hn : (2 <= np.len data)%nat)
    by (unfold data, np.len; rewrite repeat_length; lia).
  split.
  - rewrite mean_Num by (apply len_ge_2_nonempty; exact Hn).
    unfold data. rewrite Rmean_repeat by lia. reflexivity.
  - rewrite std_Num by exact Hn.
    unfold sample_std, data. rewrite sample_variance_repeat by lia.
    rewrite sqrt_0. reflexivity.
Qed.

Lemma t_stat_zero_std (data : list R) (m mu0 : R) :
  data <> [] -> np.mean data = Num m -> np.std data 1 = Num 0 ->
  Float.div (Float.sub (np.mean data) (Num mu0))
            (Float.div (np.std data 1) (Float.sqrt (Float.of_nat (np.len data))))
  = Float.inf_of_sign (m - mu0).
Proof.
  intros Hne Hm Hs. rewrite Hm, Hs, sqrt_Num.
  assert (Hq : 0 < sqrt (INR (np.len data))).
  { apply sqrt_lt_R0. apply INR_len_pos. exact Hne. }
  rewrite div_Num by lra.
  change (Float.sub (Num m) (Num mu0)) with (Num (m + - mu0)).
  rewrite div_zero by (unfold Rdiv; apply Rmult_0_l).
  reflexivity.
Qed.

Lemma inf_of_sign_not_finite (x : R) : Float.is_finite (Float.inf_of_sign x) = false.
Proof.
  unfold Float.inf_of_sign. destruct (Rlt_dec 0 x); [reflexivity|].
  destruct (Rlt_dec x 0); reflexivity.
Qed.

(** ** Sorting *)

Lemma Rleb_true (x y : R) : Rleb x y = true <-> x <= y.
Proof. unfold Rleb. destruct (Rle_dec x y); split; auto; discriminate. Qed.

Lemma Rleb_false (x y : R) : Rleb x y = false <-> y < x.
Proof.
  unfold Rleb. destruct (Rle_dec x y); split; intros; try discriminate; try lra;
    reflexivity.
Qed.

Lemma Rltb_true (x y : R) : Rltb x y = true <-> x < y.
Proof. unfold Rltb. destruct (Rlt_dec x y); split; auto; discriminate. Qed.

Lemma Reqb_true (x y : R) : Reqb x y = true <-> x = y.
Proof. unfold Reqb. destruct (Req_dec_T x y); split; auto; discriminate. Qed.

Lemma insert_perm (x : R) (l : list R) : Permutation (np.insert x l) (x :: l).
Proof.
  induction l as [|y t IH]; simpl; [apply Permutation_refl|].
  destruct (Rleb x y); [apply Permutation_refl|].
  apply perm_trans with (y :: x :: t); [apply perm_skip; exact IH | apply perm_swap].
Qed.

Lemma sort_perm (l : list R) : Permutation (np.sort l) l.
Proof.
  induction l as [|x t IH]; simpl; [apply perm_nil|].
  apply perm_trans with (x :: np.sort t); [apply insert_perm | apply perm_skip; exact IH].
Qed.

Lemma sort_len (l : list R) : np.len (np.sort l) = np.len l.
Proof. apply Permutation_length, sort_perm. Qed.

Lemma insert_hdrel (a x : R) (l : list R) :
  a <= x -> HdRel Rle a l -> HdRel Rle a (np.insert x l).
Proof.
  intros Hax Hl. destruct l as [|y t]; simpl; [constructor; exact Hax|].
  destruct (Rleb x y); constructor; [exact Hax|].
  inversion Hl; assumption.
Qed.

Lemma insert_sorted (x : R) (l : list R) : Sorted Rle l -> Sorted Rle (np.insert x l).
Proof.
  induction l as [|y t IH]; intros Hs; simpl.
  - repeat constructor.
  - destruct (Rleb x y) eqn:E.
    + constructor; [exact Hs|]. constructor. apply Rleb_true; exact E.
    + inversion Hs as [|? ? Ht Hhd]; subst.
      constructor; [apply IH; exact Ht|].
      apply insert_hdrel; [|exact Hhd]. apply Rleb_false in E. lra.
Qed.

Lemma sort_sorted (l : list R) : Sorted Rle (np.sort l).
Proof.
  induction l as [|x t IH]; simpl; [constructor | apply insert_sorted; exact IH].
Qed.

Lemma Rle_trans' : Relations_1.Transitive Rle.
Proof. intros x y z. apply Rle_trans. Qed.

Lemma sorted_le_all (a : R) (l : list R) :
  Sorted Rle (a :: l) -> forall y, In y (a :: l) -> a <= y.
Proof.
  intros Hs y Hy. apply Sorted_StronglySorted in Hs; [|exact Rle_trans'].
  inversion Hs as [|? ? _ Hall]; subst.
  destruct Hy as [<-|Hy]; [lra|].
  rewrite Forall_forall in Hall. apply Hall; exact Hy.
Qed.

(** A sample has one sorted arrangement. *)
Lemma sorted_perm_eq (l1 l2 : list R) :
  Sorted Rle l1 -> Sorted Rle l2 -> Permutation l1 l2 -> l1 = l2.
Proof.
  revert l2; induction l1 as [|a t1 IH]; intros l2 H1 H2 HP.
  - apply Permutation_nil in HP. congruence.
  - destruct l2 as [|b t2]; [apply Permutation_sym, Permutation_nil in HP; discriminate|].
    assert (a = b).
    { apply Rle_antisym.
      - apply (sorted_le_all a t1 H1).
        apply (Permutation_in _ (Permutation_sym HP)). left; reflexivity.
      - apply (sorted_le_all b t2 H2).
        apply (Permutation_in _ HP). left; reflexivity. }
    subst b. f_equal. apply IH.
    + inversion H1; assumption.
    + inversion H2; assumption.
    + apply Permutation_cons_inv with a; exact HP.
Qed.

Lemma sort_unique (data s : list R) :
  Permutation s data -> Sorted Rle s -> np.sort data = s.
Proof.
  intros HP Hs. apply sorted_perm_eq; [apply sort_sorted | exact Hs|].
  apply perm_trans with data; [apply sort_perm | apply Permutation_sym; exact HP].
Qed.

(** ** Indexing *)

Lemma getitem_ok (a : list R) (i : Z) :
  (0 <= i < Z.of_nat (np.len a))%Z -> getitem a i = Ok (nth (Z.to_nat i) a 0).
Proof.
  intros [H1 H2]. unfold getitem.
  destruct (i <? 0)%Z eqn:E; [apply Z.ltb_lt in E; lia|].
  apply Z.leb_le in H1. apply Z.ltb_lt in H2. rewrite H1, H2. reflexivity.
Qed.

(** ** Distinct values and their counts *)

Lemma runs_hd (x : R) (t : list R) : exists c r, np.runs (x :: t) = (x, c) :: r.
Proof.
  simpl. destruct (np.runs t) as [|[y c] r]; [eauto|].
  destruct (Reqb x y) eqn:E; [|eauto].
  apply Reqb_true in E. subst y. eauto.
Qed.

Lemma runs_nonempty (l : list R) : l <> [] -> np.runs l <> [].
Proof.
  destruct l as [|x t]; [congruence|]. intros _.
  destruct (runs_hd x t) as (c & r & ->). discriminate.
Qed.

Lemma count_not_in (l : list R) (x : R) : ~ In x l -> count l x = 0%nat.
Proof. intros H. apply count_occ_not_In. exact H. Qed.

Lemma count_cons_eq (l : list R) (x : R) : count (x :: l) x = S (count l x).
Proof. unfold count. apply count_occ_cons_eq. reflexivity. Qed.

Lemma count_cons_neq (l : list R) (x y : R) : x <> y -> count (x :: l) y = count l y.
Proof. intros H. unfold count. apply count_occ_cons_neq. exact H. Qed.

Lemma count_perm (l l' : list R) (x : R) : Permutation l l' -> count l x = count l' x.
Proof.
  intros H. unfold count.
  apply (proj1 (Permutation_count_occ Req_dec_T l l') H).
Qed.

Lemma count_pos (l : list R) (x : R) : In x l <-> (0 < count l x)%nat.
Proof. unfold count. apply count_occ_In. Qed.

(** On a sorted array the runs list each distinct value once, in strictly
    increasing order, with its number of occurrences. *)
Lemma runs_spec (l : list R) :
  Sorted Rle l ->
  StronglySorted Rlt (map fst (np.runs l))
  /\ (forall v c, In (v, c) (np.runs l) -> In v l /\ c = count l v)
  /\ (forall v, In v l -> In (v, count l v) (np.runs l)).
Proof.
  induction l as [|x t IH]; intros Hs.
  - simpl. repeat split; try constructor; intros; contradiction.
  - assert (Ht : Sorted Rle t) by (inversion Hs; assumption).
    destruct (IH Ht) as (Hss & Hin & Hall). clear IH.
    pose proof (sorted_le_all x t Hs) as Hmin.
    destruct t as [|y t'].
    + simpl. repeat split.
      * repeat constructor.
      * destruct H as [H|[]]. inversion H; subst. left; reflexivity.
      * destruct H as [H|[]]. inversion H; subst.
        rewrite count_cons_eq. reflexivity.
      * intros v [<-|[]]. rewrite count_cons_eq. left; reflexivity.
    + destruct (runs_hd y t') as (c & r & Hr).
      change (np.runs (x :: y :: t'))
        with (match np.runs (y :: t') with
              | (y0, c0) :: r0 =>
                  if Reqb x y0 then (y0, S c0) :: r0 else (x, 1%nat) :: (y0, c0) :: r0
              | [] => [(x, 1%nat)]
              end).
      rewrite Hr in *. simpl map in Hss.
      assert (Hyc : c = count (y :: t') y)
        by (apply (Hin y c); left; reflexivity).
      assert (Hr_gt : forall v c', In (v, c') r -> y < v).
      { intros v c' Hv. inversion Hss as [|? ? _ Hf]; subst.
        rewrite Forall_forall in Hf. apply Hf.
        apply in_map_iff. exists (v, c'). split; [reflexivity | exact Hv]. }
      destruct (Reqb x y) eqn:E.
      * apply Reqb_true in E. subst y. repeat split.
        -- exact Hss.
        -- destruct H as [H|H].
           ++ inversion H; subst. left; reflexivity.
           ++ right. apply (Hin v c0). right; exact H.
        -- destruct H as [H|H].
           ++ inversion H; subst. symmetry. apply count_cons_eq.
           ++ pose proof (Hr_gt v c0 H).
              rewrite count_cons_neq by lra. apply (Hin v c0). right; exact H.
        -- intros v Hv. destruct (Req_dec_T x v) as [<-|Hne].
           ++ left. rewrite count_cons_eq, <- Hyc. reflexivity.
           ++ rewrite count_cons_neq by exact Hne.
              destruct Hv as [Hv|Hv]; [contradiction|].
              destruct (Hall v Hv) as [H|H]; [inversion H; contradiction|].
              right; exact H.
      * assert (Hxy : x < y).
        { assert (x <= y) by (apply Hmin; right; left; reflexivity).
          destruct (Req_dec_T x y) as [Heq|Hne]; [|lra].
          apply Reqb_true in Heq. congruence. }
        assert (Hnotin : ~ In x (y :: t')).
        { intros Hx. pose proof (sorted_le_all y t' Ht x Hx). lra. }
        repeat split.
        -- simpl. constructor; [exact Hss|].
           constructor; [exact Hxy|].
           inversion Hss as [|? ? _ Hf]; subst.
           eapply Forall_impl; [|exact Hf]. simpl. intros; lra.
        -- destruct H as [H|H].
           ++ inversion H; subst. left; reflexivity.
           ++ right. apply (Hin v c0). exact H.
        -- destruct H as [H|H].
           ++ inversion H; subst. rewrite count_cons_eq.
              rewrite (count_not_in _ _ Hnotin). reflexivity.
           ++ destruct (Hin v c0 H) as [Hv ->].
              symmetry. apply count_cons_neq.
              intros ->. contradiction.
        -- intros v Hv. destruct (Req_dec_T x v) as [<-|Hne].
           ++ left. rewrite count_cons_eq, (count_not_in _ _ Hnotin). reflexivity.
           ++ rewrite count_cons_neq by exact Hne.
              destruct Hv as [Hv|Hv]; [contradiction|].
              right. apply Hall. exact Hv.
Qed.

Lemma unique_spec (data : list R) :
  StronglySorted Rlt (map fst (np.unique data))
  /\ (forall v c, In (v, c) (np.unique data) <-> In v data /\ c = count data v).
Proof.
  unfold np.unique.
  destruct (runs_spec (np.sort data) (sort_sorted data)) as (Hss & Hin & Hall).
  split; [exact Hss|].
  intros v c. split.
  - intros H. destruct (Hin v c H) as [Hv ->]. split.
    + apply (Permutation_in _ (sort_perm data)). exact Hv.
    + apply count_perm, sort_perm.
  - intros [Hv ->].
    rewrite <- (count_perm (np.sort data) data v (sort_perm data)). apply Hall.
    apply (Permutation_in _ (Permutation_sym (sort_perm data))). exact Hv.
Qed.

(** ** Centre *)

Ltac dlia := zify; Z.to_euclidean_division_equations; lia.

Lemma fold_max_ge (t : list nat) (c : nat) :
  (c <= fold_left Nat.max t c)%nat
  /\ forall x, In x t -> (x <= fold_left Nat.max t c)%nat.
Proof.
  revert c; induction t as [|y t IH]; intros c; simpl.
  - split; [lia | intros x []].
  - destruct (IH (Nat.max c y)) as [H1 H2]. split; [lia|].
    intros x [<-|Hx]; [lia | apply H2; exact Hx].
Qed.

Lemma fold_max_in (t : list nat) (c : nat) : In (fold_left Nat.max t c) (c :: t).
Proof.
  revert c; induction t as [|y t IH]; intros c; simpl; [left; reflexivity|].
  destruct (IH (Nat.max c y)) as [H|H]; [|right; right; exact H].
  rewrite <- H. destruct (Nat.max_spec c y) as [[_ ->]|[_ ->]]; auto.
Qed.

Lemma max_count_spec (counts : list nat) :
  counts <> [] ->
  exists mc, np.max_count counts = Ok mc
             /\ In mc counts /\ forall c, In c counts -> (c <= mc)%nat.
Proof.
  destruct counts as [|c t]; [congruence|]. intros _.
  exists (fold_left Nat.max t c). split; [reflexivity|].
  split; [apply fold_max_in|].
  destruct (fold_max_ge t c) as [H1 H2].
  intros x [<-|Hx]; [exact H1 | apply H2; exact Hx].
Qed.

Lemma unique_nonempty (data : list R) : data <> [] -> np.unique data <> [].
Proof.
  intros H. unfold np.unique. apply runs_nonempty.
  intros E. apply H. apply length_zero_iff_nil.
  change (np.len data = 0%nat). rewrite <- sort_len, E. reflexivity.
Qed.

(** The largest count is the frequency of a most frequent value. *)
Lemma max_count_unique (data : list R) :
  data <> [] ->
  exists mc, np.max_count (map snd (np.unique data)) = Ok mc
             /\ (exists x, In x data /\ count data x = mc)
             /\ forall y, (count data y <= mc)%nat.
Proof.
  intros H.
  destruct (max_count_spec (map snd (np.unique data))) as (mc & Hmc & Hin & Hge).
  { intros E. apply map_eq_nil in E. revert E. apply unique_nonempty. exact H. }
  destruct (unique_spec data) as [_ Hu].
  exists mc. split; [exact Hmc|]. split.
  - apply in_map_iff in Hin. destruct Hin as ([v c] & Hc & Hvc). simpl in Hc. subst c.
    apply Hu in Hvc. destruct Hvc as [Hv ->]. exists v. split; [exact Hv | reflexivity].
  - intros y. destruct (in_dec Req_dec_T y data) as [Hy|Hy].
    + apply Hge. apply in_map_iff. exists (y, count data y). split; [reflexivity|].
      apply Hu. split; [exact Hy | reflexivity].
    + rewrite (count_not_in _ _ Hy). lia.
Qed.

Lemma select_modes_in (uc : list (R * nat)) (mc : nat) (x : R) :
  In x (DescriptiveStats.select_modes uc mc) <-> In (x, mc) uc.
Proof.
  unfold DescriptiveStats.select_modes. rewrite in_map_iff. split.
  - intros ([v c] & Hv & Hf). simpl in Hv. subst v.
    apply filter_In in Hf. destruct Hf as [Hf E]. simpl in E.
    apply Nat.eqb_eq in E. subst c. exact Hf.
  - intros H. exists (x, mc). split; [reflexivity|].
    apply filter_In. split; [exact H | simpl; apply Nat.eqb_refl].
Qed.

Lemma select_modes_sorted (uc : list (R * nat)) (mc : nat) :
  StronglySorted Rlt (map fst uc) ->
  StronglySorted Rlt (DescriptiveStats.select_modes uc mc).
Proof.
  unfold DescriptiveStats.select_modes.
  induction uc as [|[v c] uc IH]; intros Hs; simpl; [constructor|].
  inversion Hs as [|? ? Hs' Hall]; subst.
  destruct (Nat.eqb c mc); simpl; [|apply IH; exact Hs'].
  constructor; [apply IH; exact Hs'|].
  rewrite Forall_forall in *. intros y Hy. apply Hall.
  apply in_map_iff in Hy. destruct Hy as (p & <- & Hp).
  apply in_map. apply filter_In in Hp. tauto.
Qed.

Lemma strictly_sorted_nodup (l : list R) : StronglySorted Rlt l -> NoDup l.
Proof.
  induction 1 as [|a l Hs IH Hall]; constructor; [|exact IH].
  intros Hin. rewrite Forall_forall in Hall. specialize (Hall a Hin). lra.
Qed.

Lemma strictly_sorted_sorted (l : list R) : StronglySorted Rlt l -> Sorted Rle l.
Proof.
  intros H. apply StronglySorted_Sorted.
  induction H as [|a l Hs IH Hall]; constructor; [exact IH|].
  eapply Forall_impl; [|exact Hall]. simpl. intros; lra.
Qed.

Lemma median_Num (data : list R) :
  data <> [] -> np.median data = Num (middle (np.sort data)).
Proof.
  intros H. unfold np.median, middle. rewrite sort_len.
  destruct (Nat.eqb (np.len data) 0) eqn:E.
  { apply Nat.eqb_eq in E. apply length_zero_iff_nil in E. contradiction. }
  destruct (Nat.even (np.len data)).
  - change (Float.add (Num ?a) (Num ?b)) with (Num (a + b)).
    unfold Float.of_nat. rewrite div_Num by (simpl; lra). reflexivity.
  - unfold Float.of_nat. rewrite div_Num by (simpl; lra). f_equal.
    simpl. field.
Qed.

Lemma center_outcome T (data : list R) (show : bool) :
  data <> [] ->
  exists mc,
    np.max_count (map snd (np.unique data)) = Ok mc
    /\ outcome (DescriptiveStats.measures_of_center T data show) =
       Ok {| Center.mean := np.mean data;
             Center.median := np.median data;
             Center.mode := DescriptiveStats.select_modes (np.unique data) mc;
             Center.n := np.len data |}.
Proof.
  intros H.
  destruct (max_count_unique data H) as (mc & Hmc & _ & _).
  exists mc. split; [exact Hmc|].
  assert (Hn : (1 <= np.len data)%nat).
  { destruct data; [congruence | simpl; lia]. }
  unfold DescriptiveStats.measures_of_center.
  skip_steps. skip_steps.
  rewrite outcome_then.
  2:{ apply outcome_when. intros _.
      rewrite outcome_then by reflexivity. rewrite outcome_then by reflexivity.
      destruct (Nat.eqb (np.len data mod 2) 0) eqn:E.
      - apply Nat.eqb_eq in E.
        rewrite outcome_bind, outcome_lift, getitem_ok by (rewrite sort_len; dlia).
        rewrite outcome_bind, outcome_lift, getitem_ok by (rewrite sort_len; dlia).
        reflexivity.
      - rewrite outcome_bind, outcome_lift, getitem_ok by (rewrite sort_len; dlia).
        reflexivity. }
  rewrite outcome_bind, outcome_lift, Hmc.
  rewrite outcome_then; [reflexivity|].
  apply outcome_when. intros _.
  rewrite outcome_then by reflexivity.
  destruct (Nat.eqb (np.len (DescriptiveStats.select_modes (np.unique data) mc)) 1) eqn:E.
  - apply Nat.eqb_eq in E.
    rewrite outcome_bind, outcome_lift, getitem_ok by (rewrite E; lia).
    reflexivity.
  - destruct (Nat.eqb (np.len (DescriptiveStats.select_modes (np.unique data) mc))
                      (np.len data)); reflexivity.
Qed.

(** ** Concrete samples *)

Lemma Reqb_false (x y : R) : Reqb x y = false <-> x <> y.
Proof. unfold Reqb. destruct (Req_dec_T x y); split; congruence. Qed.

Lemma Rltb_false (x y : R) : Rltb x y = false <-> y <= x.
Proof.
  unfold Rltb. destruct (Rlt_dec x y); split; intros; try discriminate; try lra;
    reflexivity.
Qed.

(** Decides the comparisons of numerals left in a goal. *)
Ltac r_eval :=
  repeat match goal with
         | |- context [Rleb ?a ?b] =>
             first [ rewrite (proj2 (Rleb_true a b)) by lra
                   | rewrite (proj2 (Rleb_false a b)) by lra ]
         | |- context [Rltb ?a ?b] =>
             first [ rewrite (proj2 (Rltb_true a b)) by lra
                   | rewrite (proj2 (Rltb_false a b)) by lra ]
         | |- context [Reqb ?a ?b] =>
             first [ rewrite (proj2 (Reqb_true a b)) by lra
                   | rewrite (proj2 (Reqb_false a b)) by lra ]
         end.

Lemma sort_sorted_id (s : list R) : Sorted Rle s -> np.sort s = s.
Proof. intros H. apply sort_unique; [apply Permutation_refl | exact H]. Qed.

Ltac sorted_numerals := repeat constructor; lra.

Lemma center_mode_value T (data : list R) (show : bool) (mc : nat) :
  data <> [] ->
  np.max_count (map snd (np.unique data)) = Ok mc ->
  exists d, outcome (DescriptiveStats.measures_of_center T data show) = Ok d
            /\ Center.mode d = DescriptiveStats.select_modes (np.unique data) mc.
Proof.
  intros H Hmc. destruct (center_outcome T data show H) as (mc' & Hmc' & Hd).
  rewrite Hmc in Hmc'. inversion Hmc'; subst mc'.
  eexists. split; [exact Hd | reflexivity].
Qed.

Lemma unique_1123 : np.unique [1; 1; 2; 3] = [(1, 2%nat); (2, 1%nat); (3, 1%nat)].
Proof.
  unfold np.unique. rewrite sort_sorted_id by sorted_numerals.
  cbn [np.runs]. r_eval. reflexivity.
Qed.

Lemma unique_123 : np.unique [1; 2; 3] = [(1, 1%nat); (2, 1%nat); (3, 1%nat)].
Proof.
  unfold np.unique. rewrite sort_sorted_id by sorted_numerals.
  cbn [np.runs]. r_eval. reflexivity.
Qed.

Lemma nodup_count (data : list R) (x : R) : NoDup data -> In x data -> count data x = 1%nat.
Proof.
  intros Hnd Hx. unfold count.
  pose proof (proj1 (NoDup_count_occ Req_dec_T data) Hnd x) as Hle.
  pose proof (proj1 (count_occ_In Req_dec_T data x) Hx). lia.
Qed.

(** ** Printed lines *)

Lemma output_bind {A B} (m : io A) (f : A -> io B) :
  output (bind m f) =
  (output m ++ match outcome m with Ok a => output (f a) | Raise _ => [] end)%list.
Proof.
  destruct m as [out [a|e]]; simpl.
  - destruct (f a); reflexivity.
  - symmetry. apply app_nil_r.
Qed.

Lemma in_output_then {A} (m : io unit) (k : io A) (x : string) :
  outcome m = Ok tt -> ~ In x (output m) ->
  (In x (output (bind m (fun _ => k))) <-> In x (output k)).
Proof.
  intros Hok Hnot. rewrite output_bind, Hok, in_app_iff. tauto.
Qed.

Lemma in_output_lift {A B} (r : result A) (a : A) (f : A -> io B) (x : string) :
  r = Ok a -> (In x (output (bind (lift r) f)) <-> In x (output (f a))).
Proof. intros ->. rewrite output_bind. simpl. tauto. Qed.

Ltac not_this_line := unfold nl, no_mode_line; simpl; intuition discriminate.

Lemma center_no_mode_line T (data : list R) (mc : nat) :
  data <> [] ->
  np.max_count (map snd (np.unique data)) = Ok mc ->
  let modes := DescriptiveStats.select_modes (np.unique data) mc in
  In no_mode_line (output (DescriptiveStats.measures_of_center T data true))
  <-> np.len modes <> 1%nat /\ np.len modes = np.len data.
Proof.
  intros H Hmc modes.
  assert (Hn : (1 <= np.len data)%nat).
  { destruct data; [congruence | simpl; lia]. }
  unfold DescriptiveStats.measures_of_center.
  rewrite in_output_then by (try reflexivity; not_this_line).
  rewrite in_output_then by (try reflexivity; not_this_line).
  rewrite in_output_then.
  2:{ apply outcome_when. intros _.
      rewrite outcome_then by reflexivity. rewrite outcome_then by reflexivity.
      destruct (Nat.eqb (np.len data mod 2) 0) eqn:E.
      - apply Nat.eqb_eq in E.
        rewrite outcome_bind, outcome_lift, getitem_ok by (rewrite sort_len; dlia).
        rewrite outcome_bind, outcome_lift, getitem_ok by (rewrite sort_len; dlia).
        reflexivity.
      - rewrite outcome_bind, outcome_lift, getitem_ok by (rewrite sort_len; dlia).
        reflexivity. }
  2:{ unfold when_.
      rewrite in_output_then by (try reflexivity; not_this_line).
      rewrite in_output_then by (try reflexivity; not_this_line).
      assert (Gmid : getitem (np.sort data) (Z.of_nat (np.len data) / 2)
                     = Ok (nth (Z.to_nat (Z.of_nat (np.len data) / 2)) (np.sort data) 0))
        by (apply getitem_ok; rewrite sort_len; dlia).
      destruct (Nat.eqb (np.len data mod 2) 0) eqn:E.
      - apply Nat.eqb_eq in E.
        assert (Glow : getitem (np.sort data) (Z.of_nat (np.len data) / 2 - 1)
                       = Ok (nth (Z.to_nat (Z.of_nat (np.len data) / 2 - 1))
                               (np.sort data) 0))
          by (apply getitem_ok; rewrite sort_len; dlia).
        rewrite (in_output_lift _ _ _ _ Glow).
        rewrite (in_output_lift _ _ _ _ Gmid).
        not_this_line.
      - rewrite (in_output_lift _ _ _ _ Gmid).
        not_this_line. }
  rewrite (in_output_lift _ _ _ _ Hmc).
  fold modes. rewrite output_bind. unfold when_ at 1.
  rewrite in_app_iff.
  assert (Hret : forall (o : result unit) (r : Center.t),
             ~ In no_mode_line
                 match o with Ok _ => output (ret r) | Raise _ => [] end).
  { intros [|] r; simpl; tauto. }
  split.
  - intros [Hin|Hin]; [|exfalso; exact (Hret _ _ Hin)].
    rewrite in_output_then in Hin by (try reflexivity; not_this_line).
    destruct (Nat.eqb (np.len modes) 1) eqn:E1.
    + apply Nat.eqb_eq in E1.
      assert (G0 : getitem modes 0 = Ok (nth (Z.to_nat 0) modes 0))
        by (apply getitem_ok; rewrite E1; lia).
      rewrite (in_output_lift _ _ _ _ G0) in Hin.
      exfalso. revert Hin. not_this_line.
    + apply Nat.eqb_neq in E1.
      destruct (Nat.eqb (np.len modes) (np.len data)) eqn:E2.
      * apply Nat.eqb_eq in E2. tauto.
      * exfalso. revert Hin. not_this_line.
  - intros [H1 H2]. left.
    rewrite in_output_then by (try reflexivity; not_this_line).
    apply Nat.eqb_neq in H1. apply Nat.eqb_eq in H2. rewrite H1, H2.
    left. reflexivity.
Qed.

(** ** The returned modes *)

Lemma modes_spec (data : list R) (mc : nat) :
  data <> [] ->
  np.max_count (map snd (np.unique data)) = Ok mc ->
  let modes := DescriptiveStats.select_modes (np.unique data) mc in
  StronglySorted Rlt modes
  /\ (forall x, In x modes <-> most_frequent data x)
  /\ (NoDup data -> modes = np.sort data)
  /\ (np.len modes = np.len data -> NoDup data).
Proof.
  intros H Hmc modes.
  destruct (max_count_unique data H) as (mc' & Hmc' & (x0 & Hx0 & Hc0) & Hmax).
  assert (E : mc' = mc) by congruence. rewrite E in *. clear E Hmc'.
  destruct (unique_spec data) as [Hss Hu].
  assert (Hsorted : StronglySorted Rlt modes)
    by (apply select_modes_sorted; exact Hss).
  assert (Hin : forall x, In x modes <-> most_frequent data x).
  { intros x. unfold modes. rewrite select_modes_in, Hu. unfold most_frequent.
    split.
    - intros [Hx Hc]. split; [exact Hx|]. intros y. rewrite <- Hc. apply Hmax.
    - intros [Hx Hall]. split; [exact Hx|].
      specialize (Hall x0). specialize (Hmax x). lia. }
  assert (Hincl : incl modes data).
  { intros x Hx. apply Hin in Hx. destruct Hx; assumption. }
  repeat split; try assumption; try (apply Hin; assumption).
  - intros Hnd. symmetry. apply sort_unique; [|apply strictly_sorted_sorted; exact Hsorted].
    apply NoDup_Permutation; [apply strictly_sorted_nodup; exact Hsorted | exact Hnd|].
    intros x. rewrite Hin. unfold most_frequent. split; [tauto|].
    intros Hx. split; [exact Hx|]. intros y.
    rewrite (nodup_count data x Hnd Hx).
    destruct (in_dec Req_dec_T y data) as [Hy|Hy].
    + rewrite (nodup_count data y Hnd Hy). lia.
    + rewrite (count_not_in _ _ Hy). lia.
  - intros Hlen. apply (@NoDup_incl_NoDup R modes data).
    + apply strictly_sorted_nodup; exact Hsorted.
    + unfold np.len in Hlen. rewrite Hlen. apply Nat.le_refl.
    + exact Hincl.
Qed.

Lemma center_output_silent T (data : list R) :
  output (DescriptiveStats.measures_of_center T data false) = [].
Proof.
  unfold DescriptiveStats.measures_of_center, when_.
  rewrite !output_bind. simpl.
  destruct (np.max_count (map snd (np.unique data))); reflexivity.
Qed.

(** ** Percentiles *)

(** The interpolation as the program computes it, on a sorted sample of
    [S m] values. *)
Lemma linear_percentile_eq (s : list R) (p m : nat) :
  np.len s = S m -> (p <= 100)%nat ->
  linear_percentile s p
  = nth (p * m / 100) s 0
    + (nth (Nat.min (S (p * m / 100)) m) s 0 - nth (p * m / 100) s 0)
      * (INR ((p * m) mod 100) / 100).
Proof.
  intros Hlen Hp. unfold linear_percentile. rewrite Hlen.
  set (q := (p * m / 100)%nat). set (r := ((p * m) mod 100)%nat).
  assert (Hqr : (p * m = 100 * q + r)%nat) by (unfold q, r; apply Nat.div_mod_eq).
  assert (Hr : (r < 100)%nat) by (unfold r; apply Nat.mod_upper_bound; lia).
  assert (Hh : INR p / 100 * (INR (S m) - 1) = IZR (Z.of_nat q) + INR r / 100).
  { rewrite S_INR. rewrite <- INR_IZR_INZ.
    assert (E : INR p * INR m = 100 * INR q + INR r).
    { rewrite <- mult_INR, Hqr, plus_INR, mult_INR.
      replace (INR 100) with 100 by (rewrite INR_IZR_INZ; reflexivity).
      reflexivity. }
    field_simplify. rewrite E. field. }
  assert (Hg : 0 <= INR r / 100 < 1).
  { pose proof (pos_INR r). apply lt_INR in Hr.
    replace (INR 100) with 100 in Hr by (rewrite INR_IZR_INZ; reflexivity).
    split; lra. }
  destruct (Int_part_frac_part_spec _ _ _ Hg Hh) as [Hi Hf].
  rewrite <- Hi, <- Hf, Nat2Z.id.
  destruct (Nat.le_gt_cases (S q) m) as [Hle|Hgt].
  - rewrite Nat.min_l by exact Hle. reflexivity.
  - assert (Hq : q = m) by nia.
    assert (Hr0 : r = 0%nat) by nia.
    rewrite Hr0. simpl INR. unfold Rdiv. rewrite !Rmult_0_l, !Rmult_0_r. reflexivity.
Qed.

Lemma percentile_linear (data : list R) (p : nat) :
  data <> [] -> (p <= 100)%nat ->
  np.percentile data p = Ok (Num (linear_percentile (np.sort data) p)).
Proof.
  intros H Hp. unfold np.percentile.
  destruct (np.len data) as [|m] eqn:Hlen.
  { apply length_zero_iff_nil in Hlen. contradiction. }
  rewrite (linear_percentile_eq (np.sort data) p m); [reflexivity| |exact Hp].
  rewrite sort_len. exact Hlen.
Qed.

Lemma sorted_nth_le (s : list R) (i j : nat) :
  Sorted Rle s -> (i <= j)%nat -> (j < np.len s)%nat -> nth i s 0 <= nth j s 0.
Proof.
  intros Hs. revert i j. induction s as [|a t IH]; intros i j Hij Hj; [simpl in Hj; lia|].
  unfold np.len in *. simpl in Hj.
  destruct i as [|i], j as [|j]; try lia.
  - simpl; lra.
  - simpl. apply (sorted_le_all a t Hs). right. apply nth_In. lia.
  - simpl. apply IH; [inversion Hs; assumption | lia | lia].
Qed.

(** Percentiles grow with the rank. *)
Lemma linear_percentile_mono (s : list R) (p1 p2 : nat) :
  s <> [] -> Sorted Rle s -> (p1 <= p2)%nat -> (p2 <= 100)%nat ->
  linear_percentile s p1 <= linear_percentile s p2.
Proof.
  intros Hne Hs H12 H2.
  destruct (np.len s) as [|m] eqn:Hlen.
  { apply length_zero_iff_nil in Hlen. contradiction. }
  rewrite (linear_percentile_eq s p1 m Hlen) by lia.
  rewrite (linear_percentile_eq s p2 m Hlen) by lia.
  set (q1 := (p1 * m / 100)%nat). set (r1 := ((p1 * m) mod 100)%nat).
  set (q2 := (p2 * m / 100)%nat). set (r2 := ((p2 * m) mod 100)%nat).
  assert (E1 : (p1 * m = 100 * q1 + r1)%nat) by (unfold q1, r1; apply Nat.div_mod_eq).
  assert (E2 : (p2 * m = 100 * q2 + r2)%nat) by (unfold q2, r2; apply Nat.div_mod_eq).
  assert (B1 : (r1 < 100)%nat) by (unfold r1; apply Nat.mod_upper_bound; lia).
  assert (B2 : (r2 < 100)%nat) by (unfold r2; apply Nat.mod_upper_bound; lia).
  assert (Hle : (p1 * m <= p2 * m)%nat) by (apply Nat.mul_le_mono_r; exact H12).
  assert (Hq2 : (q2 <= m)%nat) by nia.
  assert (Hq12 : (q1 <= q2)%nat) by nia.
  assert (G : forall r, (r < 100)%nat -> 0 <= INR r / 100 < 1).
  { intros r Hr. pose proof (pos_INR r). apply lt_INR in Hr.
    replace (INR 100) with 100 in Hr by (rewrite INR_IZR_INZ; reflexivity).
    split; lra. }
  pose proof (G r1 B1) as G1. pose proof (G r2 B2) as G2.
  assert (S1 : nth q1 s 0 <= nth (Nat.min (S q1) m) s 0)
    by (apply sorted_nth_le; [exact Hs | lia | rewrite Hlen; lia]).
  assert (S2 : nth q2 s 0 <= nth (Nat.min (S q2) m) s 0)
    by (apply sorted_nth_le; [exact Hs | lia | rewrite Hlen; lia]).
  destruct (Nat.eq_dec q1 q2) as [Heq|Hneq].
  - rewrite <- Heq in *.
    assert (Hr : INR r1 <= INR r2) by (apply le_INR; lia).
    nra.
  - assert (S3 : nth (Nat.min (S q1) m) s 0 <= nth q2 s 0)
      by (apply sorted_nth_le; [exact Hs | lia | rewrite Hlen; lia]).
    nra.
Qed.

Lemma interquartile_nonneg (s : list R) :
  s <> [] -> Sorted Rle s -> 0 <= interquartile s.
Proof.
  intros Hne Hs. unfold interquartile, quartile1, quartile3.
  assert (H : linear_percentile s 25 <= linear_percentile s 75)
    by (apply linear_percentile_mono; [exact Hne | exact Hs | lia | lia]).
  lra.
Qed.

(** ** Five-number summary *)

Lemma five_number_outcome T (data : list R) (show : bool) (x : R) (t : list R) :
  data = x :: t ->
  let s := np.sort data in
  outcome (DescriptiveStats.five_number_summary T data show) =
  Ok {| FiveNumber.min := Num (fold_left Rmin t x);
        FiveNumber.q1 := Num (quartile1 s);
        FiveNumber.median := Num (linear_percentile s 50);
        FiveNumber.q3 := Num (quartile3 s);
        FiveNumber.max := Num (fold_left Rmax t x);
        FiveNumber.iqr := Num (interquartile s);
        FiveNumber.outliers :=
          filter (DescriptiveStats.outside (Num (lower_bound s)) (Num (upper_bound s)))
                 data;
        FiveNumber.lower_fence := Num (lower_bound s);
        FiveNumber.upper_fence := Num (upper_bound s) |}.
Proof.
  intros Hd s. unfold DescriptiveStats.five_number_summary.
  assert (Hne : data <> []) by (rewrite Hd; discriminate).
  rewrite outcome_bind, outcome_lift, (percentile_linear data 25 Hne) by lia.
  rewrite outcome_bind, outcome_lift, (percentile_linear data 50 Hne) by lia.
  rewrite outcome_bind, outcome_lift, (percentile_linear data 75 Hne) by lia.
  rewrite outcome_then.
  2:{ apply outcome_when. intros _. rewrite Hd. reflexivity. }
  skip_steps.
  rewrite outcome_bind, outcome_lift. rewrite Hd at 1. cbn [np.min].
  rewrite outcome_bind, outcome_lift. rewrite Hd at 1. cbn [np.max].
  reflexivity.
Qed.

Lemma outside_Num (lo hi x : R) :
  DescriptiveStats.outside (Num lo) (Num hi) x = true <-> x < lo \/ hi < x.
Proof.
  unfold DescriptiveStats.outside. simpl.
  rewrite orb_true_iff, !Rltb_true. tauto.
Qed.

Lemma filter_one_outside (f : R -> bool) (l1 l2 : list R) (v : R) :
  f v = true -> (forall x, In x (l1 ++ l2) -> f x = false) ->
  filter f (l1 ++ v :: l2) = [v].
Proof.
  intros Hv Hrest.
  assert (E : forall l, (forall x, In x l -> f x = false) -> filter f l = []).
  { induction l as [|a l IH]; intros Hl; [reflexivity|]. simpl.
    rewrite (Hl a) by (left; reflexivity). apply IH. intros y Hy. apply Hl. right; exact Hy. }
  rewrite filter_app. simpl. rewrite Hv.
  rewrite (E l1) by (intros y Hy; apply Hrest, in_or_app; left; exact Hy).
  rewrite (E l2) by (intros y Hy; apply Hrest, in_or_app; right; exact Hy).
  reflexivity.
Qed.

Lemma quartiles_12345 :
  quartile1 [1; 2; 3; 4; 100] = 2 /\ quartile3 [1; 2; 3; 4; 100] = 4.
Proof.
  unfold quartile1, quartile3.
  rewrite (linear_percentile_eq [1; 2; 3; 4; 100] 25 4 eq_refl) by lia.
  rewrite (linear_percentile_eq [1; 2; 3; 4; 100] 75 4 eq_refl) by lia.
  change ((25 * 4 / 100)%nat) with 1%nat. change (((25 * 4) mod 100)%nat) with 0%nat.
  change ((75 * 4 / 100)%nat) with 3%nat. change (((75 * 4) mod 100)%nat) with 0%nat.
  simpl. split; lra.
Qed.

(** ** Claims on the measures of spread *)

(** C6: on a sample of at least two values [measures_of_spread] returns the
    Bessel-corrected variance (squared deviations from the mean summed and
    divided by [n - 1]) and its square root as standard deviation; on
    [2,4,4,4,5,5,7,9] these are 4.571429 and 2.138090 to six decimals. *)
Theorem spread_bessel_variance :
  (forall T data show, (2 <= np.len data)%nat ->
     exists d, outcome (DescriptiveStats.measures_of_spread T data show) = Ok d
               /\ Spread.variance d = Num (sample_variance data)
               /\ Spread.std_dev d = Num (sqrt (sample_variance data)))
  /\ (forall T show,
        exists d v s,
          outcome (DescriptiveStats.measures_of_spread T [2;4;4;4;5;5;7;9] show) = Ok d
          /\ Spread.variance d = Num v /\ Spread.std_dev d = Num s
          /\ Rabs (v - 4.571429) < 0.000001 /\ Rabs (s - 2.138090) < 0.000001).
Proof.
  assert (G : forall T data show, (2 <= np.len data)%nat ->
     exists d, outcome (DescriptiveStats.measures_of_spread T data show) = Ok d
               /\ Spread.variance d = Num (sample_variance data)
               /\ Spread.std_dev d = Num (sqrt (sample_variance data))).
  { intros T data show H.
    destruct data as [|x t]; [simpl in H; lia|].
    eexists. split; [apply (spread_outcome T (x :: t) show x t eq_refl)|].
    cbn [Spread.variance Spread.std_dev].
    split; [apply var_Num; exact H | apply std_Num; exact H]. }
  split; [exact G|].
  intros T show.
  destruct (G T [2;4;4;4;5;5;7;9] show) as (d & Hd & Hv & Hs); [simpl; lia|].
  exists d, (32 / 7), (sqrt (32 / 7)).
  rewrite example_variance in Hv, Hs.
  repeat split; try assumption.
  - apply Rabs_def1; lra.
  - destruct (sqrt_between 2.1380895 2.1380905 (32 / 7)) as [H1 H2]; try lra.
    apply Rabs_def1; lra.
Qed.

Lemma spread_bessel_variance_witness :
  (2 <= np.len [1; 3])%nat
  /\ exists d, outcome (DescriptiveStats.measures_of_spread blank_text [1; 3] false) = Ok d
               /\ Spread.variance d = Num (sample_variance [1; 3])
               /\ Spread.std_dev d = Num (sqrt (sample_variance [1; 3])).
Proof.
  split; [simpl; lia|].
  apply (proj1 spread_bessel_variance blank_text [1; 3] false). simpl; lia.
Defined.




(** ** Claims on the one-sample t-test *)

(** C3, as the specification words it, fails on its example: for the sample
    [85,92,78,88,95,82,79,91,87,84] and [mu0 = 85] the statistic the program
    returns is not within 0.001 of 0.277. *)
Lemma t_statistic_reference_counterexample :
  exists r t,
    outcome (HypothesisTests.one_sample_t_test blank_text half_cdf zero_ppf
               test_scores (Num 85) (Num 0.05) "two-sided" false) = Ok r
    /\ statistic r = Num t
    /\ ~ Rabs (t - 0.277) <= 0.001.
Proof.
  eexists. exists (t_formula test_scores 85).
  split; [apply t_test_outcome|]. cbn [statistic].
  split.
  - apply t_stat_Num; [unfold test_scores; simpl; lia|].
    unfold sample_std. rewrite test_scores_variance.
    destruct (sqrt_between 5 6 (2809 / 90)); lra.
  - pose proof test_scores_t as [H1 H2].
    intros H. unfold Rabs in H. destruct (Rcase_abs _) in H; lra.
Qed.

(** C3, amended: on a sample of at least two values with non-zero standard
    deviation the statistic is [(mean - mu0) / (s / sqrt n)] with [s]
    Bessel-corrected, and the distribution is read at [n - 1] degrees of
    freedom; for [85,92,78,88,95,82,79,91,87,84] and [mu0 = 85] the statistic
    is 0.6226 to within 0.001, with 9 degrees of freedom. *)
Theorem t_statistic_formula :
  (forall T cdf ppf data mu0 alpha alt show,
      (2 <= np.len data)%nat -> sample_std data <> 0 ->
      exists r,
        outcome (HypothesisTests.one_sample_t_test T cdf ppf data (Num mu0) alpha
                   alt show) = Ok r
        /\ statistic r = Num (t_formula data mu0)
        /\ critical_value r
           = Some (ppf (critical_level alpha alt) (Z.of_nat (np.len data) - 1)%Z))
  /\ (forall T cdf ppf alpha show,
        exists r t,
          outcome (HypothesisTests.one_sample_t_test T cdf ppf test_scores (Num 85)
                     alpha "two-sided" show) = Ok r
          /\ statistic r = Num t
          /\ Rabs (t - 0.6226) < 0.001
          /\ p_value r = Float.mul (Num 2) (Float.sub (Num 1) (cdf (Num (Rabs t)) 9%Z))
          /\ critical_value r = Some (ppf (critical_level alpha "two-sided") 9%Z)).
Proof.
  split.
  - intros T cdf ppf data mu0 alpha alt show Hn Hs.
    eexists. split; [apply t_test_outcome|]. cbn [statistic critical_value].
    split; [apply t_stat_Num; assumption | reflexivity].
  - intros T cdf ppf alpha show.
    eexists. exists (t_formula test_scores 85).
    split; [apply t_test_outcome|]. cbn [statistic critical_value p_value].
    assert (Ht : Float.div (Float.sub (np.mean test_scores) (Num 85))
                   (Float.div (np.std test_scores 1)
                      (Float.sqrt (Float.of_nat (np.len test_scores))))
                 = Num (t_formula test_scores 85)).
    { apply t_stat_Num; [unfold test_scores; simpl; lia|].
      unfold sample_std. rewrite test_scores_variance.
      destruct (sqrt_between 5 6 (2809 / 90)); lra. }
    rewrite Ht. pose proof test_scores_t as [H1 H2].
    repeat split; try reflexivity.
    apply Rabs_def1; lra.
Qed.

Lemma t_statistic_formula_witness :
  exists r,
    outcome (HypothesisTests.one_sample_t_test blank_text half_cdf zero_ppf
               [1; 3] (Num 0) (Num 0.05) "greater" false) = Ok r
    /\ statistic r = Num (t_formula [1; 3] 0)
    /\ critical_value r = Some (zero_ppf (critical_level (Num 0.05) "greater") 1%Z).
Proof.
  apply (proj1 t_statistic_formula blank_text half_cdf zero_ppf [1; 3] 0
           (Num 0.05) "greater"%string false).
  - simpl; lia.
  - unfold sample_std.
    assert (Hv : sample_variance [1; 3] = 2).
    { unfold sample_variance, Rmean, sq_dev, Rsum. cbn [map fold_right].
      inr_norm. field. }
    rewrite Hv. destruct (sqrt_between 1 2 2); lra.
Defined.

(** C4: the p-value is read from the Student t distribution function at
    [n - 1] degrees of freedom: [2 * (1 - CDF(|t|))] for the two-sided
    alternative, [1 - CDF(t)] for greater and [CDF(t)] for less. *)
Theorem t_test_p_value T cdf ppf (data : list R) (mu0 alpha : fl) (show : bool) :
  let df := (Z.of_nat (np.len data) - 1)%Z in
  let run := fun alt => outcome (HypothesisTests.one_sample_t_test T cdf ppf data
                                   mu0 alpha alt show) in
  (exists r, run "two-sided"%string = Ok r
             /\ p_value r
                = Float.mul (Num 2) (Float.sub (Num 1) (cdf (Float.abs (statistic r)) df)))
  /\ (exists r, run "greater"%string = Ok r
                /\ p_value r = Float.sub (Num 1) (cdf (statistic r) df))
  /\ (exists r, run "less"%string = Ok r
                /\ p_value r = cdf (statistic r) df).
Proof.
  intros df run. unfold run.
  repeat split; eexists; (split; [apply t_test_outcome | reflexivity]).
Qed.

(** C5: the interpretation says "Reject" exactly when the p-value is
    strictly below alpha, and "Fail to reject" otherwise. *)
Theorem t_test_decision T cdf ppf (data : list R) (mu0 alpha : fl)
    (alt : string) (show : bool) :
  exists r,
    outcome (HypothesisTests.one_sample_t_test T cdf ppf data mu0 alpha alt show) = Ok r
    /\ (prefix "Reject" (interpretation r) = true <-> Float.lt (p_value r) alpha)
    /\ (prefix "Fail to reject" (interpretation r) = true
        <-> ~ Float.lt (p_value r) alpha)
    /\ interpretation r
       = ((if Float.ltb (p_value r) alpha then "Reject" else "Fail to reject")
            ++ " H₀ at α = " ++ str_float T alpha)%string.
Proof.
  eexists. split; [apply t_test_outcome|]. cbn [interpretation p_value].
  match goal with |- context [Float.ltb ?p alpha] => set (pv := p) end.
  pose proof (ltb_lt pv alpha) as Hlt.
  pose proof (ltb_not_lt pv alpha) as Hnlt.
  destruct (Float.ltb pv alpha); simpl; intuition congruence.
Qed.

(** C10: the result is named "One-Sample t-test" and carries a statistic, a
    p-value, a critical value and an interpretation, while its confidence
    interval and its list of steps are [None]. *)
Theorem t_test_result_fields T cdf ppf (data : list R) (mu0 alpha : fl)
    (alt : string) (show : bool) :
  exists r,
    outcome (HypothesisTests.one_sample_t_test T cdf ppf data mu0 alpha alt show) = Ok r
    /\ test_name r = "One-Sample t-test"%string
    /\ (exists c, critical_value r = Some c)
    /\ interpretation r <> EmptyString
    /\ confidence_interval r = None
    /\ steps r = None.
Proof.
  eexists. split; [apply t_test_outcome|].
  cbn [test_name critical_value interpretation confidence_interval steps].
  repeat split; try reflexivity.
  - eexists; reflexivity.
  - match goal with |- context [Float.ltb ?p alpha] => destruct (Float.ltb p alpha) end;
      discriminate.
Qed.

(** ** Claims on degenerate samples *)

(** C2, as the specification words it, fails: on a sample of one value
    [measures_of_spread] does not fail, it returns a variance that is NaN. *)
Lemma degenerate_input_counterexample :
  exists d,
    outcome (DescriptiveStats.measures_of_spread blank_text [5] false) = Ok d
    /\ Spread.variance d = NaN.
Proof.
  eexists. split; [apply (spread_outcome blank_text [5] false 5 [] eq_refl)|].
  apply var_singleton.
Qed.

(** C2, amended: the program has no input guard.  On a sample of one value
    [measures_of_spread] returns NaN for variance and standard deviation.
    On a non-empty sample whose computed standard deviation is exactly
    zero [one_sample_t_test] returns a statistic that is infinite, with the
    sign of the computed mean minus [mu0], or NaN when they are equal; on
    float64 the constant sample [5,5,5] is such a sample, while the
    constant sample [0.1,0.1,0.1] is not: its mean is rounded, its computed
    standard deviation is positive and its statistic is finite.  On the
    empty sample [one_sample_t_test] returns a NaN statistic, and the three
    descriptive statistics raise the [ValueError] or [IndexError] of the
    first numpy call or indexing that needs an element. *)
Theorem degenerate_input_behaviour :
  (forall T x show,
      exists d, outcome (DescriptiveStats.measures_of_spread T [x] show) = Ok d
                /\ Spread.variance d = NaN /\ Spread.std_dev d = NaN
                /\ Spread.range d = Num (x - x))
  /\ (forall T cdf ppf data m mu0 alpha alt show,
        data <> [] -> np.mean data = Num m -> np.std data 1 = Num 0 ->
        exists r,
          outcome (HypothesisTests.one_sample_t_test T cdf ppf data
                     (Num mu0) alpha alt show) = Ok r
          /\ statistic r = Float.inf_of_sign (m - mu0)
          /\ Float.is_finite (statistic r) = false)
  /\ (F64.mean [5; 5; 5]%float = 5%float
      /\ F64.std [5; 5; 5]%float 1 = 0%float
      /\ F64.t_stat [5; 5; 5]%float 3%float = PrimFloat.infinity
      /\ F64.t_stat [5; 5; 5]%float 7%float = PrimFloat.neg_infinity
      /\ F64.t_stat [5; 5; 5]%float 5%float = PrimFloat.nan)
  /\ (PrimFloat.ltb F64.tenth (F64.mean [F64.tenth; F64.tenth; F64.tenth]) = true
      /\ PrimFloat.ltb 0%float (F64.std [F64.tenth; F64.tenth; F64.tenth] 1) = true
      /\ F64.is_finite (F64.t_stat [F64.tenth; F64.tenth; F64.tenth] F64.tenth) = true
      /\ F64.is_finite (F64.t_stat [F64.tenth; F64.tenth; F64.tenth] 0%float) = true)
  /\ (forall T cdf ppf mu0 alpha alt show,
        exists r,
          outcome (HypothesisTests.one_sample_t_test T cdf ppf [] mu0 alpha alt show)
          = Ok r
          /\ statistic r = NaN)
  /\ (forall T show,
        outcome (DescriptiveStats.measures_of_center T [] show)
        = Raise (if show then IndexError else ValueError))
  /\ (forall T show,
        outcome (DescriptiveStats.measures_of_spread T [] show) = Raise ValueError)
  /\ (forall T show,
        exists e, outcome (DescriptiveStats.five_number_summary T [] show) = Raise e).
Proof.
  split; [|split; [|split; [|split; [|split; [|split; [|split]]]]]].
  - intros T x show. eexists.
    split; [apply (spread_outcome T [x] show x [] eq_refl)|].
    cbn [Spread.variance Spread.std_dev Spread.range].
    unfold np.std. rewrite var_singleton. repeat split.
  - intros T cdf ppf data m mu0 alpha alt show Hne Hm Hs. eexists.
    split; [apply t_test_outcome|]. cbn [statistic].
    rewrite (t_stat_zero_std data m mu0 Hne Hm Hs).
    split; [reflexivity | apply inf_of_sign_not_finite].
  - repeat split; vm_compute; reflexivity.
  - repeat split; vm_compute; reflexivity.
  - intros T cdf ppf mu0 alpha alt show. eexists.
    split; [apply t_test_outcome|]. cbn [statistic].
    rewrite mean_empty. reflexivity.
  - intros T [|]; reflexivity.
  - intros T [|]; reflexivity.
  - intros T [|]; eexists; reflexivity.
Qed.

Lemma degenerate_input_behaviour_witness :
  [5; 5; 5] <> [] /\ np.mean [5; 5; 5] = Num 5 /\ np.std [5; 5; 5] 1 = Num 0
  /\ exists r,
       outcome (HypothesisTests.one_sample_t_test blank_text half_cdf zero_ppf
                  [5; 5; 5] (Num 3) (Num 0.05) "two-sided" false) = Ok r
       /\ statistic r = Float.inf_of_sign (5 - 3)
       /\ Float.is_finite (statistic r) = false.
Proof.
  pose proof (constant_mean_std 5 1) as [Hm Hs]. cbn [repeat] in Hm, Hs.
  split; [discriminate|]. split; [exact Hm|]. split; [exact Hs|].
  apply (proj1 (proj2 degenerate_input_behaviour) blank_text half_cdf zero_ppf
           [5; 5; 5] 5 3 (Num 0.05) "two-sided"%string false).
  - discriminate.
  - exact Hm.
  - exact Hs.
Defined.

(** ** Claims on the measures of center *)

(** C8: on a non-empty sample the median returned by [measures_of_center] is
    the middle element of the sorted sample when the size is odd and the
    average of the two middle elements when it is even; the median of
    [1,2,3,4] is 2.5 and the median of [1,2,3] is 2. *)
Theorem center_median :
  (forall T data show s,
      data <> [] -> Permutation s data -> Sorted Rle s ->
      exists d, outcome (DescriptiveStats.measures_of_center T data show) = Ok d
                /\ Center.median d = Num (middle s))
  /\ (forall T show,
        exists d, outcome (DescriptiveStats.measures_of_center T [1; 2; 3; 4] show) = Ok d
                  /\ Center.median d = Num 2.5)
  /\ (forall T show,
        exists d, outcome (DescriptiveStats.measures_of_center T [1; 2; 3] show) = Ok d
                  /\ Center.median d = Num 2).
Proof.
  assert (G : forall T data show s,
      data <> [] -> Permutation s data -> Sorted Rle s ->
      exists d, outcome (DescriptiveStats.measures_of_center T data show) = Ok d
                /\ Center.median d = Num (middle s)).
  { intros T data show s H HP Hs.
    destruct (center_outcome T data show H) as (mc & _ & Hd).
    eexists. split; [exact Hd|]. cbn [Center.median].
    rewrite median_Num by exact H. rewrite (sort_unique data s HP Hs). reflexivity. }
  split; [exact G|]. split; intros T show.
  - destruct (G T [1; 2; 3; 4] show [1; 2; 3; 4]) as (d & Hd & Hm);
      [discriminate | apply Permutation_refl | sorted_numerals|].
    exists d. split; [exact Hd|]. rewrite Hm. f_equal.
    unfold middle. simpl. lra.
  - destruct (G T [1; 2; 3] show [1; 2; 3]) as (d & Hd & Hm);
      [discriminate | apply Permutation_refl | sorted_numerals|].
    exists d. split; [exact Hd|]. rewrite Hm. reflexivity.
Qed.

Lemma center_median_witness :
  exists d, outcome (DescriptiveStats.measures_of_center blank_text [3; 1; 2] true) = Ok d
            /\ Center.median d = Num (middle [1; 2; 3]).
Proof.
  apply (proj1 center_median blank_text [3; 1; 2] true [1; 2; 3]).
  - discriminate.
  - apply Permutation_sym. apply perm_trans with [1; 3; 2].
    + apply perm_swap.
    + apply perm_skip. apply perm_swap.
  - sorted_numerals.
Defined.

(** C1, as the specification words it, fails: on the all-unique sample
    [1,2,3] the result of [measures_of_center] reports the three values as
    modes. *)
Lemma mode_all_unique_counterexample :
  exists d,
    outcome (DescriptiveStats.measures_of_center blank_text [1; 2; 3] false) = Ok d
    /\ NoDup [1; 2; 3]
    /\ Center.mode d = [1; 2; 3].
Proof.
  destruct (center_mode_value blank_text [1; 2; 3] false 1) as (d & Hd & Hm).
  - discriminate.
  - rewrite unique_123. reflexivity.
  - exists d. split; [exact Hd|]. split.
    + repeat constructor; simpl; intros H; intuition lra.
    + rewrite Hm, unique_123. reflexivity.
Qed.

(** C1, amended: on every non-empty sample, all-unique or not, the mode
    returned by [measures_of_center] is the set of values attaining the
    maximum frequency, in increasing order; on an all-unique sample these
    are all the values of the sample.  The mode of [1,1,2,3] is [1].  "No
    mode" is only a printed line, shown when [show_steps] is set and the
    sample has two or more values, all unique. *)
Theorem center_mode :
  (forall T data show,
      data <> [] ->
      exists d, outcome (DescriptiveStats.measures_of_center T data show) = Ok d
                /\ StronglySorted Rlt (Center.mode d)
                /\ forall x, In x (Center.mode d) <-> most_frequent data x)
  /\ (forall T data show,
        data <> [] -> NoDup data ->
        exists d, outcome (DescriptiveStats.measures_of_center T data show) = Ok d
                  /\ Center.mode d = np.sort data
                  /\ np.len (Center.mode d) = np.len data)
  /\ (forall T show,
        exists d, outcome (DescriptiveStats.measures_of_center T [1; 1; 2; 3] show) = Ok d
                  /\ Center.mode d = [1])
  /\ (forall T data,
        data <> [] ->
        (In no_mode_line (output (DescriptiveStats.measures_of_center T data true))
         <-> NoDup data /\ (2 <= np.len data)%nat))
  /\ (forall T data,
        output (DescriptiveStats.measures_of_center T data false) = []).
Proof.
  split; [|split; [|split; [|split]]].
  - intros T data show H.
    destruct (max_count_unique data H) as (mc & Hmc & _).
    destruct (center_mode_value T data show mc H Hmc) as (d & Hd & Hm).
    destruct (modes_spec data mc H Hmc) as (Hs & Hin & _).
    exists d. rewrite Hm. auto.
  - intros T data show H Hnd.
    destruct (max_count_unique data H) as (mc & Hmc & _).
    destruct (center_mode_value T data show mc H Hmc) as (d & Hd & Hm).
    destruct (modes_spec data mc H Hmc) as (_ & _ & Hall & _).
    exists d. rewrite Hm, (Hall Hnd). split; [exact Hd|].
    split; [reflexivity | apply sort_len].
  - intros T show.
    destruct (center_mode_value T [1; 1; 2; 3] show 2) as (d & Hd & Hm).
    + discriminate.
    + rewrite unique_1123. reflexivity.
    + exists d. split; [exact Hd|]. rewrite Hm, unique_1123. reflexivity.
  - intros T data H.
    destruct (max_count_unique data H) as (mc & Hmc & _).
    rewrite (center_no_mode_line T data mc H Hmc).
    destruct (modes_spec data mc H Hmc) as (_ & _ & Hall & Hlen).
    split.
    + intros [H1 H2]. split; [apply Hlen; exact H2|].
      assert (1 <= np.len data)%nat by (destruct data; [congruence | simpl; lia]).
      lia.
    + intros [Hnd Hn]. rewrite (Hall Hnd), sort_len. lia.
  - intros T data. apply center_output_silent.
Qed.

Lemma center_mode_witness :
  exists d, outcome (DescriptiveStats.measures_of_center blank_text [2; 2; 7] true) = Ok d
            /\ StronglySorted Rlt (Center.mode d)
            /\ forall x, In x (Center.mode d) <-> most_frequent [2; 2; 7] x.
Proof.
  apply (proj1 center_mode blank_text [2; 2; 7] true). discriminate.
Defined.

(** ** Claims on the five-number summary *)

(** C7: on a non-empty sample [five_number_summary] takes the quartiles by
    linear interpolation in the sorted sample, IQR = Q3 - Q1, the fences
    Q1 - 1.5 IQR and Q3 + 1.5 IQR, and returns as outliers exactly the
    sample values strictly outside the fences, in sample order: a value
    equal to a fence is not an outlier, and a single value beyond the upper
    fence is the only outlier. *)
Theorem five_number_outliers T (data : list R) (show : bool) (s : list R) :
  data <> [] -> Permutation s data -> Sorted Rle s ->
  exists d,
    outcome (DescriptiveStats.five_number_summary T data show) = Ok d
    /\ FiveNumber.q1 d = Num (quartile1 s)
    /\ FiveNumber.q3 d = Num (quartile3 s)
    /\ FiveNumber.iqr d = Num (quartile3 s - quartile1 s)
    /\ FiveNumber.lower_fence d = Num (quartile1 s - 1.5 * (quartile3 s - quartile1 s))
    /\ FiveNumber.upper_fence d = Num (quartile3 s + 1.5 * (quartile3 s - quartile1 s))
    /\ FiveNumber.outliers d
       = filter (fun x => Rltb x (lower_bound s) || Rltb (upper_bound s) x) data
    /\ (forall x, In x (FiveNumber.outliers d) <-> In x data /\ beyond_fences s x)
    /\ (forall x, x = lower_bound s \/ x = upper_bound s ->
                  ~ In x (FiveNumber.outliers d))
    /\ (forall l1 v l2,
           data = (l1 ++ v :: l2)%list -> upper_bound s < v ->
           (forall x, In x (l1 ++ l2) -> lower_bound s <= x <= upper_bound s) ->
           FiveNumber.outliers d = [v]).
Proof.
  intros Hne HP Hs.
  destruct data as [|x0 t] eqn:Hd; [congruence|]. rewrite <- Hd in *.
  pose proof (five_number_outcome T data show x0 t Hd) as Ho. simpl in Ho.
  rewrite (sort_unique data s HP Hs) in Ho.
  eexists. split; [exact Ho|].
  cbn [FiveNumber.q1 FiveNumber.q3 FiveNumber.iqr FiveNumber.lower_fence
       FiveNumber.upper_fence FiveNumber.outliers].
  assert (Hin : forall x,
             In x (filter (DescriptiveStats.outside (Num (lower_bound s))
                             (Num (upper_bound s))) data)
             <-> In x data /\ beyond_fences s x).
  { intros x. rewrite filter_In, outside_Num. reflexivity. }
  assert (Hiqr : 0 <= interquartile s).
  { apply interquartile_nonneg; [|exact Hs].
    intros E. subst s. apply Permutation_nil in HP. congruence. }
  repeat split; try reflexivity; try (apply Hin; assumption).
  - intros x [Hx|Hx] Hout; apply Hin in Hout; destruct Hout as [_ [Hb|Hb]];
      unfold lower_bound, upper_bound, interquartile in *; lra.
  - intros l1 v l2 Hdata Hv Hrest. rewrite Hdata.
    apply filter_one_outside.
    + apply outside_Num. right. exact Hv.
    + intros y Hy. specialize (Hrest y Hy).
      destruct (DescriptiveStats.outside _ _ y) eqn:E; [|reflexivity].
      apply outside_Num in E. lra.
Qed.

Lemma five_number_outliers_witness :
  exists d,
    outcome (DescriptiveStats.five_number_summary blank_text [1; 2; 3; 4; 100] false)
    = Ok d
    /\ FiveNumber.outliers d = [100].
Proof.
  destruct (five_number_outliers blank_text [1; 2; 3; 4; 100] false [1; 2; 3; 4; 100])
    as (d & Hd & _ & _ & _ & _ & _ & _ & _ & _ & Hone).
  - discriminate.
  - apply Permutation_refl.
  - sorted_numerals.
  - exists d. split; [exact Hd|].
    destruct quartiles_12345 as [Q1 Q3].
    apply (Hone [1; 2; 3; 4] 100 []).
    + reflexivity.
    + unfold upper_bound, interquartile. rewrite Q1, Q3. lra.
    + unfold lower_bound, upper_bound, interquartile. rewrite Q1, Q3.
      simpl. intros y Hy. intuition lra.
Defined.

(** * Further properties *)

(** ** Smallest and largest value *)

Lemma fold_min_spec (t : list R) (x : R) :
  In (fold_left Rmin t x) (x :: t)
  /\ forall y, In y (x :: t) -> fold_left Rmin t x <= y.
Proof.
  revert x; induction t as [|a t IH]; intros x.
  - simpl. split; [left; reflexivity|]. intros y [<-|[]]. lra.
  - cbn [fold_left]. destruct (IH (Rmin x a)) as [Hin Hle]. split.
    + destruct Hin as [Hin|Hin]; [|right; right; exact Hin].
      rewrite <- Hin. unfold Rmin. destruct (Rle_dec x a); [left | right; left]; reflexivity.
    + intros y Hy.
      assert (Hm : fold_left Rmin t (Rmin x a) <= Rmin x a)
        by (apply Hle; left; reflexivity).
      destruct Hy as [<-|[<-|Hy]].
      * pose proof (Rmin_l x a). lra.
      * pose proof (Rmin_r x a). lra.
      * apply Hle. right; exact Hy.
Qed.

Lemma fold_max_spec (t : list R) (x : R) :
  In (fold_left Rmax t x) (x :: t)
  /\ forall y, In y (x :: t) -> y <= fold_left Rmax t x.
Proof.
  revert x; induction t as [|a t IH]; intros x.
  - simpl. split; [left; reflexivity|]. intros y [<-|[]]. lra.
  - cbn [fold_left]. destruct (IH (Rmax x a)) as [Hin Hle]. split.
    + destruct Hin as [Hin|Hin]; [|right; right; exact Hin].
      rewrite <- Hin. unfold Rmax. destruct (Rle_dec x a); [right; left | left]; reflexivity.
    + intros y Hy.
      assert (Hm : Rmax x a <= fold_left Rmax t (Rmax x a))
        by (apply Hle; left; reflexivity).
      destruct Hy as [<-|[<-|Hy]].
      * pose proof (Rmax_l x a). lra.
      * pose proof (Rmax_r x a). lra.
      * apply Hle. right; exact Hy.
Qed.

Lemma np_min_spec (data : list R) :
  data <> [] ->
  exists lo, np.min data = Ok lo /\ In lo data /\ forall y, In y data -> lo <= y.
Proof.
  destruct data as [|x t]; [congruence|]. intros _.
  exists (fold_left Rmin t x). split; [reflexivity | apply fold_min_spec].
Qed.

Lemma np_max_spec (data : list R) :
  data <> [] ->
  exists hi, np.max data = Ok hi /\ In hi data /\ forall y, In y data -> y <= hi.
Proof.
  destruct data as [|x t]; [congruence|]. intros _.
  exists (fold_left Rmax t x). split; [reflexivity | apply fold_max_spec].
Qed.

(** ** The range of a sample *)

(** X3: on a non-empty sample [measures_of_spread] returns as [min] and
    [max] two values of the sample that bound every value of it, and as
    [range] their difference; computed without rounding or overflow, the
    range is not negative and is zero exactly when all values of the sample
    are equal. *)
Theorem spread_min_max_range T (data : list R) (show : bool) :
  data <> [] ->
  exists d lo hi,
    outcome (DescriptiveStats.measures_of_spread T data show) = Ok d
    /\ Spread.min d = Num lo /\ Spread.max d = Num hi
    /\ Spread.range d = Num (hi - lo)
    /\ In lo data /\ In hi data
    /\ (forall x, In x data -> lo <= x <= hi)
    /\ 0 <= hi - lo
    /\ (hi - lo = 0 <-> forall x y, In x data -> In y data -> x = y).
Proof.
  intros H. destruct data as [|x0 t]; [congruence|].
  destruct (fold_min_spec t x0) as [Hlo_in Hlo].
  destruct (fold_max_spec t x0) as [Hhi_in Hhi].
  eexists. exists (fold_left Rmin t x0), (fold_left Rmax t x0).
  split; [apply (spread_outcome T (x0 :: t) show x0 t eq_refl)|].
  cbn [Spread.min Spread.max Spread.range].
  repeat split; try reflexivity; try assumption.
  - apply Hlo; assumption.
  - apply Hhi; assumption.
  - specialize (Hlo _ Hhi_in). lra.
  - intros E x y Hx Hy.
    pose proof (Hlo x Hx). pose proof (Hhi x Hx).
    pose proof (Hlo y Hy). pose proof (Hhi y Hy). lra.
  - intros Hall. rewrite (Hall _ _ Hhi_in Hlo_in). lra.
Qed.

Lemma spread_min_max_range_witness :
  exists d lo hi,
    outcome (DescriptiveStats.measures_of_spread blank_text [4; 1; 3] false) = Ok d
    /\ Spread.min d = Num lo /\ Spread.max d = Num hi
    /\ Spread.range d = Num (hi - lo)
    /\ In lo [4; 1; 3] /\ In hi [4; 1; 3]
    /\ (forall x, In x [4; 1; 3] -> lo <= x <= hi)
    /\ 0 <= hi - lo
    /\ (hi - lo = 0 <-> forall x y, In x [4; 1; 3] -> In y [4; 1; 3] -> x = y).
Proof.
  apply (spread_min_max_range blank_text [4; 1; 3] false). discriminate.
Defined.

(** ** The mean *)

Lemma Rsum_bounds (l : list R) (lo hi : R) :
  (forall x, In x l -> lo <= x <= hi) ->
  INR (np.len l) * lo <= Rsum l <= INR (np.len l) * hi.
Proof.
  induction l as [|a l IH]; intros Hb.
  - simpl. lra.
  - change (np.len (a :: l)) with (S (np.len l)). rewrite S_INR.
    change (Rsum (a :: l)) with (a + Rsum l).
    destruct (Hb a (or_introl eq_refl)).
    destruct IH as [I1 I2]; [intros y Hy; apply Hb; right; exact Hy|]. lra.
Qed.

(** X1: on a non-empty sample [measures_of_center] returns as [n] the
    sample size and as [mean] the sum of the values divided by their
    number; computed without rounding or overflow, the mean lies between
    any lower and upper bound of the sample. *)
Theorem center_mean T (data : list R) (show : bool) :
  data <> [] ->
  exists d,
    outcome (DescriptiveStats.measures_of_center T data show) = Ok d
    /\ Center.mean d = Num (Rsum data / INR (np.len data))
    /\ Center.n d = np.len data
    /\ forall lo hi, (forall x, In x data -> lo <= x <= hi) ->
                     lo <= Rsum data / INR (np.len data) <= hi.
Proof.
  intros H. destruct (center_outcome T data show H) as (mc & _ & Hd).
  eexists. split; [exact Hd|]. cbn [Center.mean Center.n].
  split; [apply mean_Num; exact H|]. split; [reflexivity|].
  intros lo hi Hb. pose proof (Rsum_bounds data lo hi Hb) as [B1 B2].
  pose proof (INR_len_pos data H) as Hn.
  split.
  - apply Rmult_le_reg_r with (INR (np.len data)); [exact Hn|].
    unfold Rdiv. rewrite Rmult_assoc, Rinv_l by lra. lra.
  - apply Rmult_le_reg_r with (INR (np.len data)); [exact Hn|].
    unfold Rdiv. rewrite Rmult_assoc, Rinv_l by lra. lra.
Qed.

Lemma center_mean_witness :
  exists d,
    outcome (DescriptiveStats.measures_of_center blank_text [4; 1; 3] true) = Ok d
    /\ Center.mean d = Num (Rsum [4; 1; 3] / INR (np.len [4; 1; 3]))
    /\ Center.n d = np.len [4; 1; 3]
    /\ forall lo hi, (forall x, In x [4; 1; 3] -> lo <= x <= hi) ->
                     lo <= Rsum [4; 1; 3] / INR (np.len [4; 1; 3]) <= hi.
Proof.
  apply (center_mean blank_text [4; 1; 3] true). discriminate.
Defined.

(** ** Order statistics of the sorted sample *)

Lemma sorted_first_is_min (s data : list R) (lo : R) :
  Permutation s data -> Sorted Rle s ->
  In lo data -> (forall y, In y data -> lo <= y) -> nth 0 s 0 = lo.
Proof.
  intros HP Hs Hin Hle. destruct s as [|a s'].
  - apply Permutation_nil in HP. subst data. contradiction.
  - simpl. apply Rle_antisym.
    + apply (sorted_le_all a s' Hs). apply (Permutation_in _ (Permutation_sym HP)). exact Hin.
    + apply Hle. apply (Permutation_in _ HP). left; reflexivity.
Qed.

Lemma sorted_last_is_max (s data : list R) (hi : R) :
  Permutation s data -> Sorted Rle s ->
  In hi data -> (forall y, In y data -> y <= hi) -> nth (np.len s - 1) s 0 = hi.
Proof.
  intros HP Hs Hin Hle.
  assert (Hne : (0 < np.len s)%nat).
  { destruct s; [|simpl; lia].
    apply Permutation_nil in HP. subst data. contradiction. }
  apply Rle_antisym.
  - apply Hle. apply (Permutation_in _ HP). apply nth_In. unfold np.len in *. lia.
  - apply (Permutation_in _ (Permutation_sym HP)) in Hin.
    destruct (In_nth s hi 0 Hin) as (i & Hi & <-).
    apply sorted_nth_le; [exact Hs | |]; unfold np.len in *; lia.
Qed.

Lemma frac_bounds (r : nat) : (r < 100)%nat -> 0 <= INR r / 100 < 1.
Proof.
  intros Hr. pose proof (pos_INR r). apply lt_INR in Hr.
  replace (INR 100) with 100 in Hr by (rewrite INR_IZR_INZ; reflexivity).
  split; lra.
Qed.

(** A percentile lies between the smallest and the largest value. *)
Lemma linear_percentile_bounds (s : list R) (p m : nat) :
  np.len s = S m -> Sorted Rle s -> (p <= 100)%nat ->
  nth 0 s 0 <= linear_percentile s p <= nth m s 0.
Proof.
  intros Hlen Hs Hp. rewrite (linear_percentile_eq s p m Hlen Hp).
  set (q := (p * m / 100)%nat). set (r := ((p * m) mod 100)%nat).
  assert (Hqr : (p * m = 100 * q + r)%nat) by (unfold q, r; apply Nat.div_mod_eq).
  assert (Hr : (r < 100)%nat) by (unfold r; apply Nat.mod_upper_bound; lia).
  assert (Hq : (q <= m)%nat) by nia.
  pose proof (frac_bounds r Hr) as Hg.
  assert (S0 : nth 0 s 0 <= nth q s 0)
    by (apply sorted_nth_le; [exact Hs | lia | rewrite Hlen; lia]).
  assert (S1 : nth q s 0 <= nth (Nat.min (S q) m) s 0)
    by (apply sorted_nth_le; [exact Hs | lia | rewrite Hlen; lia]).
  assert (S2 : nth (Nat.min (S q) m) s 0 <= nth m s 0)
    by (apply sorted_nth_le; [exact Hs | lia | rewrite Hlen; lia]).
  split; nra.
Qed.

(** The 50th percentile is the median. *)
Lemma linear_percentile_50 (s : list R) :
  s <> [] -> linear_percentile s 50 = middle s.
Proof.
  intros Hne. destruct (np.len s) as [|m] eqn:Hlen.
  { apply length_zero_iff_nil in Hlen. contradiction. }
  rewrite (linear_percentile_eq s 50 m Hlen) by lia.
  unfold middle. rewrite Hlen.
  destruct (Nat.even m) eqn:Em.
  - apply Nat.even_spec in Em. destruct Em as [k ->].
    rewrite Nat.even_succ.
    replace (Nat.odd (2 * k)) with false
      by (symmetry; rewrite <- Nat.negb_even; replace (Nat.even (2 * k)) with true;
          [reflexivity | symmetry; apply Nat.even_spec; exists k; reflexivity]).
    replace ((50 * (2 * k) / 100)%nat) with k by dlia.
    replace (((50 * (2 * k)) mod 100)%nat) with 0%nat by dlia.
    replace ((S (2 * k) / 2)%nat) with k by dlia.
    simpl INR. unfold Rdiv. rewrite Rmult_0_l, Rmult_0_r. lra.
  - assert (Ho : Nat.odd m = true) by (rewrite <- Nat.negb_even, Em; reflexivity).
    apply Nat.odd_spec in Ho. destruct Ho as [k ->].
    rewrite Nat.even_succ.
    replace (Nat.odd (2 * k + 1)) with true
      by (symmetry; apply Nat.odd_spec; exists k; reflexivity).
    replace ((50 * (2 * k + 1) / 100)%nat) with k by dlia.
    replace (((50 * (2 * k + 1)) mod 100)%nat) with 50%nat by dlia.
    replace ((S (2 * k + 1) / 2)%nat) with (S k) by dlia.
    replace (Nat.min (S k) (2 * k + 1)) with (S k) by lia.
    replace (S k - 1)%nat with k by lia.
    replace (INR 50) with 50 by (rewrite INR_IZR_INZ; reflexivity).
    field.
Qed.

Lemma sort_nonempty (data : list R) : data <> [] -> np.sort data <> [].
Proof.
  intros H E. apply H. apply length_zero_iff_nil.
  change (np.len data = 0%nat). rewrite <- sort_len, E. reflexivity.
Qed.

(** ** Five-number summary: order, agreement with the median *)

(** X2: on a non-empty sample, computed without rounding or overflow, the
    median reported by [five_number_summary] (the 50th percentile) is the
    median reported by [measures_of_center]. *)
Theorem five_number_median_agrees T (data : list R) (show show' : bool) :
  data <> [] ->
  exists c f,
    outcome (DescriptiveStats.measures_of_center T data show) = Ok c
    /\ outcome (DescriptiveStats.five_number_summary T data show') = Ok f
    /\ FiveNumber.median f = Center.median c.
Proof.
  intros H. destruct (center_outcome T data show H) as (mc & _ & Hc).
  destruct data as [|x0 t] eqn:Hd; [congruence|]. rewrite <- Hd in *.
  pose proof (five_number_outcome T data show' x0 t Hd) as Hf. simpl in Hf.
  eexists. eexists. split; [exact Hc|]. split; [exact Hf|].
  cbn [FiveNumber.median Center.median].
  rewrite median_Num by exact H.
  rewrite linear_percentile_50 by (apply sort_nonempty; exact H). reflexivity.
Qed.

Lemma five_number_median_agrees_witness :
  exists c f,
    outcome (DescriptiveStats.measures_of_center blank_text [4; 1; 3; 2] false) = Ok c
    /\ outcome (DescriptiveStats.five_number_summary blank_text [4; 1; 3; 2] true) = Ok f
    /\ FiveNumber.median f = Center.median c.
Proof.
  apply (five_number_median_agrees blank_text [4; 1; 3; 2] false true). discriminate.
Defined.

(** X4: on a non-empty sample, computed without rounding or overflow, the
    five numbers of [five_number_summary] are ordered,
    min <= Q1 <= median <= Q3 <= max; the interquartile range is Q3 - Q1,
    so not negative, and the fences enclose the quartiles. *)
Theorem five_number_ordered T (data : list R) (show : bool) :
  data <> [] ->
  exists d lo a b c hi,
    outcome (DescriptiveStats.five_number_summary T data show) = Ok d
    /\ FiveNumber.min d = Num lo /\ FiveNumber.q1 d = Num a
    /\ FiveNumber.median d = Num b /\ FiveNumber.q3 d = Num c
    /\ FiveNumber.max d = Num hi
    /\ lo <= a /\ a <= b /\ b <= c /\ c <= hi
    /\ FiveNumber.iqr d = Num (c - a)
    /\ (exists lf uf, FiveNumber.lower_fence d = Num lf
                      /\ FiveNumber.upper_fence d = Num uf
                      /\ lf <= a /\ c <= uf).
Proof.
  intros H. destruct data as [|x0 t] eqn:Hd; [congruence|]. rewrite <- Hd in *.
  pose proof (five_number_outcome T data show x0 t Hd) as Hf. simpl in Hf.
  set (s := np.sort data) in *.
  assert (Hs : Sorted Rle s) by apply sort_sorted.
  assert (HP : Permutation s data) by apply sort_perm.
  assert (Hne : s <> []) by (apply sort_nonempty; exact H).
  destruct (np.len s) as [|m] eqn:Hlen.
  { apply length_zero_iff_nil in Hlen. contradiction. }
  destruct (fold_min_spec t x0) as [Hlo_in Hlo].
  destruct (fold_max_spec t x0) as [Hhi_in Hhi].
  rewrite <- Hd in Hlo_in, Hlo, Hhi_in, Hhi.
  pose proof (sorted_first_is_min s data _ HP Hs Hlo_in Hlo) as E0.
  pose proof (sorted_last_is_max s data _ HP Hs Hhi_in Hhi) as Em.
  rewrite Hlen in Em. replace (S m - 1)%nat with m in Em by lia.
  pose proof (linear_percentile_bounds s 25 m Hlen Hs ltac:(lia)) as [B1 _].
  pose proof (linear_percentile_bounds s 75 m Hlen Hs ltac:(lia)) as [_ B2].
  assert (M1 : linear_percentile s 25 <= linear_percentile s 50)
    by (apply linear_percentile_mono; [exact Hne | exact Hs | lia | lia]).
  assert (M2 : linear_percentile s 50 <= linear_percentile s 75)
    by (apply linear_percentile_mono; [exact Hne | exact Hs | lia | lia]).
  eexists. exists (fold_left Rmin t x0), (quartile1 s), (linear_percentile s 50),
    (quartile3 s), (fold_left Rmax t x0).
  split; [exact Hf|].
  cbn [FiveNumber.min FiveNumber.q1 FiveNumber.median FiveNumber.q3 FiveNumber.max
       FiveNumber.iqr FiveNumber.lower_fence FiveNumber.upper_fence].
  unfold quartile1, quartile3 in *.
  repeat split; try reflexivity; try lra.
  exists (lower_bound s), (upper_bound s).
  unfold lower_bound, upper_bound, interquartile, quartile1, quartile3.
  repeat split; try reflexivity; lra.
Qed.

Lemma five_number_ordered_witness :
  exists d lo a b c hi,
    outcome (DescriptiveStats.five_number_summary blank_text [4; 1; 3; 2] false) = Ok d
    /\ FiveNumber.min d = Num lo /\ FiveNumber.q1 d = Num a
    /\ FiveNumber.median d = Num b /\ FiveNumber.q3 d = Num c
    /\ FiveNumber.max d = Num hi
    /\ lo <= a /\ a <= b /\ b <= c /\ c <= hi
    /\ FiveNumber.iqr d = Num (c - a)
    /\ (exists lf uf, FiveNumber.lower_fence d = Num lf
                      /\ FiveNumber.upper_fence d = Num uf
                      /\ lf <= a /\ c <= uf).
Proof.
  apply (five_number_ordered blank_text [4; 1; 3; 2] false). discriminate.
Defined.

(** ** Outliers *)

Lemma filter_none {A} (f : A -> bool) (l : list A) :
  (forall x, In x l -> f x = false) -> filter f l = [].
Proof.
  induction l as [|a l IH]; intros Hl; [reflexivity|]. simpl.
  rewrite (Hl a) by (left; reflexivity). apply IH. intros y Hy. apply Hl. right; exact Hy.
Qed.

Lemma filter_shorter {A} (f : A -> bool) (l : list A) (x : A) :
  In x l -> f x = false -> (List.length (filter f l) < List.length l)%nat.
Proof.
  induction l as [|a l IH]; intros Hin Hx; [contradiction|].
  simpl. destruct Hin as [->|Hin].
  - rewrite Hx. pose proof (filter_length_le f l). lia.
  - specialize (IH Hin Hx). destruct (f a); simpl; lia.
Qed.

Lemma outside_false (lo hi x : R) :
  lo <= x <= hi -> DescriptiveStats.outside (Num lo) (Num hi) x = false.
Proof.
  intros Hx. destruct (DescriptiveStats.outside (Num lo) (Num hi) x) eqn:E; [|reflexivity].
  apply outside_Num in E. lra.
Qed.

Lemma quartiles_of_one (a : R) : quartile1 [a] = a /\ quartile3 [a] = a.
Proof.
  unfold quartile1, quartile3.
  rewrite (linear_percentile_eq [a] 25 0 eq_refl) by lia.
  rewrite (linear_percentile_eq [a] 75 0 eq_refl) by lia.
  simpl. split; lra.
Qed.

Lemma quartiles_of_two (a b : R) :
  quartile1 [a; b] = a + (b - a) * (25 / 100)
  /\ quartile3 [a; b] = a + (b - a) * (75 / 100).
Proof.
  unfold quartile1, quartile3.
  rewrite (linear_percentile_eq [a; b] 25 1 eq_refl) by lia.
  rewrite (linear_percentile_eq [a; b] 75 1 eq_refl) by lia.
  change ((25 * 1 / 100)%nat) with 0%nat. change (((25 * 1) mod 100)%nat) with 25%nat.
  change ((75 * 1 / 100)%nat) with 0%nat. change (((75 * 1) mod 100)%nat) with 75%nat.
  rewrite !INR_IZR_INZ. simpl. split; reflexivity.
Qed.

Lemma quartiles_of_three (a b c : R) :
  quartile1 [a; b; c] = a + (b - a) * (50 / 100)
  /\ quartile3 [a; b; c] = b + (c - b) * (50 / 100).
Proof.
  unfold quartile1, quartile3.
  rewrite (linear_percentile_eq [a; b; c] 25 2 eq_refl) by lia.
  rewrite (linear_percentile_eq [a; b; c] 75 2 eq_refl) by lia.
  change ((25 * 2 / 100)%nat) with 0%nat. change (((25 * 2) mod 100)%nat) with 50%nat.
  change ((75 * 2 / 100)%nat) with 1%nat. change (((75 * 2) mod 100)%nat) with 50%nat.
  rewrite !INR_IZR_INZ. simpl. split; reflexivity.
Qed.

(** X6: computed without rounding or overflow, a sample of one, two or
    three values has no outlier. *)
Theorem five_number_small_sample T (data : list R) (show : bool) :
  data <> [] -> (np.len data <= 3)%nat ->
  exists d,
    outcome (DescriptiveStats.five_number_summary T data show) = Ok d
    /\ FiveNumber.outliers d = [].
Proof.
  intros H Hlen. destruct data as [|x0 t] eqn:Hd; [congruence|]. rewrite <- Hd in *.
  pose proof (five_number_outcome T data show x0 t Hd) as Hf. simpl in Hf.
  eexists. split; [exact Hf|]. cbn [FiveNumber.outliers].
  apply filter_none. intros x Hx. apply outside_false.
  assert (Hs : Sorted Rle (np.sort data)) by apply sort_sorted.
  apply (Permutation_in _ (Permutation_sym (sort_perm data))) in Hx.
  rewrite <- sort_len in Hlen.
  unfold lower_bound, upper_bound, interquartile.
  destruct (np.sort data) as [|a [|b [|c [|e s]]]]; simpl in Hlen; try lia.
  - contradiction.
  - destruct (quartiles_of_one a) as [-> ->].
    destruct Hx as [<-|[]]. lra.
  - destruct (quartiles_of_two a b) as [-> ->].
    assert (a <= b) by (apply (sorted_le_all a [b] Hs); right; left; reflexivity).
    destruct Hx as [<-|[<-|[]]]; lra.
  - destruct (quartiles_of_three a b c) as [-> ->].
    assert (a <= b) by (apply (sorted_le_all a [b; c] Hs); right; left; reflexivity).
    assert (b <= c).
    { inversion Hs as [|? ? Hs' _]; subst.
      apply (sorted_le_all b [c] Hs'); right; left; reflexivity. }
    destruct Hx as [<-|[<-|[<-|[]]]]; lra.
Qed.

Lemma five_number_small_sample_witness :
  exists d,
    outcome (DescriptiveStats.five_number_summary blank_text [0; 1000; 1] true) = Ok d
    /\ FiveNumber.outliers d = [].
Proof.
  apply (five_number_small_sample blank_text [0; 1000; 1] true);
    [discriminate | simpl; lia].
Defined.

(** The sample value just below the third quartile is inside the fences. *)
Lemma inside_value (s : list R) (m : nat) :
  np.len s = S m -> Sorted Rle s ->
  lower_bound s <= nth (75 * m / 100) s 0 <= upper_bound s.
Proof.
  intros Hlen Hs.
  unfold lower_bound, upper_bound, interquartile, quartile1, quartile3.
  rewrite (linear_percentile_eq s 25 m Hlen) by lia.
  rewrite (linear_percentile_eq s 75 m Hlen) by lia.
  set (q1 := (25 * m / 100)%nat). set (r1 := ((25 * m) mod 100)%nat).
  set (q3 := (75 * m / 100)%nat). set (r3 := ((75 * m) mod 100)%nat).
  assert (E1 : (25 * m = 100 * q1 + r1)%nat) by (unfold q1, r1; apply Nat.div_mod_eq).
  assert (E3 : (75 * m = 100 * q3 + r3)%nat) by (unfold q3, r3; apply Nat.div_mod_eq).
  assert (B1 : (r1 < 100)%nat) by (unfold r1; apply Nat.mod_upper_bound; lia).
  assert (B3 : (r3 < 100)%nat) by (unfold r3; apply Nat.mod_upper_bound; lia).
  pose proof (frac_bounds r1 B1) as G1. pose proof (frac_bounds r3 B3) as G3.
  assert (Hq3 : (q3 <= m)%nat) by nia.
  assert (Hq13 : (q1 <= q3)%nat) by nia.
  assert (S1 : nth q1 s 0 <= nth (Nat.min (S q1) m) s 0)
    by (apply sorted_nth_le; [exact Hs | lia | rewrite Hlen; lia]).
  assert (S3 : nth q3 s 0 <= nth (Nat.min (S q3) m) s 0)
    by (apply sorted_nth_le; [exact Hs | lia | rewrite Hlen; lia]).
  destruct (Nat.eq_dec q1 q3) as [Heq|Hneq].
  - assert (Hm : (m <= 1)%nat) by nia.
    destruct m as [|[|m']]; [| |lia].
    + assert (r1 = 0%nat) by lia. assert (r3 = 0%nat) by lia.
      assert (q3 = 0%nat) by lia. assert (q1 = 0%nat) by lia.
      replace r1 with 0%nat in *. replace r3 with 0%nat in *.
      replace q1 with 0%nat in *. replace q3 with 0%nat in *.
      simpl INR. simpl. split; lra.
    + assert (Hr1 : r1 = 25%nat) by lia. assert (Hr3 : r3 = 75%nat) by lia.
      assert (Hq3' : q3 = 0%nat) by lia. assert (Hq1' : q1 = 0%nat) by lia.
      rewrite Hr1, Hr3, Hq1', Hq3' in *.
      rewrite !INR_IZR_INZ. simpl Z.of_nat. simpl Nat.min.
      simpl Nat.min in S1. split; lra.
  - assert (S2 : nth (Nat.min (S q1) m) s 0 <= nth q3 s 0)
      by (apply sorted_nth_le; [exact Hs | lia | rewrite Hlen; lia]).
    split; nra.
Qed.

(** X5: computed without rounding or overflow, the outliers are never the
    whole sample: on a non-empty sample at least one value lies inside the
    fences, so [five_number_summary] reports fewer outliers than the sample
    has values. *)
Theorem five_number_not_all_outliers T (data : list R) (show : bool) :
  data <> [] ->
  exists d,
    outcome (DescriptiveStats.five_number_summary T data show) = Ok d
    /\ (np.len (FiveNumber.outliers d) < np.len data)%nat
    /\ exists x, In x data /\ ~ In x (FiveNumber.outliers d).
Proof.
  intros H. destruct data as [|x0 t] eqn:Hd; [congruence|]. rewrite <- Hd in *.
  pose proof (five_number_outcome T data show x0 t Hd) as Hf. simpl in Hf.
  eexists. split; [exact Hf|]. cbn [FiveNumber.outliers].
  assert (Hs : Sorted Rle (np.sort data)) by apply sort_sorted.
  destruct (np.len (np.sort data)) as [|m] eqn:Hlen.
  { rewrite sort_len in Hlen. apply length_zero_iff_nil in Hlen. contradiction. }
  pose proof (inside_value (np.sort data) m Hlen Hs) as Hin.
  set (v := nth (75 * m / 100) (np.sort data) 0) in *.
  assert (Hv : In v data).
  { apply (Permutation_in _ (sort_perm data)). apply nth_In.
    change (75 * m / 100 < np.len (np.sort data))%nat. rewrite Hlen. dlia. }
  pose proof (outside_false _ _ v Hin) as Hout.
  split.
  - apply (filter_shorter _ data v Hv Hout).
  - exists v. split; [exact Hv|]. intros Hf'. apply filter_In in Hf'.
    destruct Hf' as [_ Hf']. congruence.
Qed.

Lemma five_number_not_all_outliers_witness :
  exists d,
    outcome (DescriptiveStats.five_number_summary blank_text [1; 2; 3; 4; 100] false)
    = Ok d
    /\ (np.len (FiveNumber.outliers d) < np.len [1; 2; 3; 4; 100])%nat
    /\ exists x, In x [1; 2; 3; 4; 100] /\ ~ In x (FiveNumber.outliers d).
Proof.
  apply (five_number_not_all_outliers blank_text [1; 2; 3; 4; 100] false). discriminate.
Defined.

(** ** The order of the sample does not matter *)

Lemma Permutation_filter {A} (f : A -> bool) (l l' : list A) :
  Permutation l l' -> Permutation (filter f l) (filter f l').
Proof.
  induction 1 as [|a l l' HP IH|a b l|l l' l'' H1 IH1 H2 IH2]; simpl.
  - apply perm_nil.
  - destruct (f a); [apply perm_skip|]; exact IH.
  - destruct (f a), (f b); try apply Permutation_refl. apply perm_swap.
  - apply perm_trans with (filter f l'); assumption.
Qed.

Lemma sort_perm_eq (data data' : list R) :
  Permutation data data' -> np.sort data' = np.sort data.
Proof.
  intros HP. apply sort_unique; [|apply sort_sorted].
  apply perm_trans with data; [apply sort_perm | exact HP].
Qed.

(** X7: reordering a non-empty sample leaves the median, the modes and [n]
    returned by [measures_of_center] unchanged. *)
Theorem center_order_independent T (data data' : list R) (show : bool) :
  data <> [] -> Permutation data data' ->
  exists d d',
    outcome (DescriptiveStats.measures_of_center T data show) = Ok d
    /\ outcome (DescriptiveStats.measures_of_center T data' show) = Ok d'
    /\ Center.median d' = Center.median d
    /\ Center.mode d' = Center.mode d
    /\ Center.n d' = Center.n d.
Proof.
  intros H HP.
  assert (H' : data' <> []).
  { intros E. subst data'. apply Permutation_sym, Permutation_nil in HP. contradiction. }
  destruct (center_outcome T data show H) as (mc & Hmc & Hd).
  destruct (center_outcome T data' show H') as (mc' & Hmc' & Hd').
  assert (Hlen : np.len data' = np.len data)
    by (symmetry; apply Permutation_length; exact HP).
  assert (Hu : np.unique data' = np.unique data)
    by (unfold np.unique; rewrite (sort_perm_eq data data' HP); reflexivity).
  rewrite Hu in Hmc', Hd'.
  assert (E : mc' = mc) by congruence. subst mc'.
  eexists. eexists. split; [exact Hd|]. split; [exact Hd'|].
  cbn [Center.median Center.mode Center.n].
  repeat split; try assumption.
  unfold np.median. rewrite Hlen, (sort_perm_eq data data' HP). reflexivity.
Qed.

Lemma center_order_independent_witness :
  exists d d',
    outcome (DescriptiveStats.measures_of_center blank_text [1; 2] true) = Ok d
    /\ outcome (DescriptiveStats.measures_of_center blank_text [2; 1] true) = Ok d'
    /\ Center.median d' = Center.median d
    /\ Center.mode d' = Center.mode d
    /\ Center.n d' = Center.n d.
Proof.
  apply (center_order_independent blank_text [1; 2] [2; 1] true);
    [discriminate | apply perm_swap].
Defined.

(** X8: reordering a non-empty sample leaves the five numbers, the
    interquartile range and the fences of [five_number_summary] unchanged,
    and the outliers are the same values, in the order of the sample. *)
Theorem five_number_order_independent T (data data' : list R) (show : bool) :
  data <> [] -> Permutation data data' ->
  exists d d',
    outcome (DescriptiveStats.five_number_summary T data show) = Ok d
    /\ outcome (DescriptiveStats.five_number_summary T data' show) = Ok d'
    /\ FiveNumber.min d' = FiveNumber.min d
    /\ FiveNumber.q1 d' = FiveNumber.q1 d
    /\ FiveNumber.median d' = FiveNumber.median d
    /\ FiveNumber.q3 d' = FiveNumber.q3 d
    /\ FiveNumber.max d' = FiveNumber.max d
    /\ FiveNumber.iqr d' = FiveNumber.iqr d
    /\ FiveNumber.lower_fence d' = FiveNumber.lower_fence d
    /\ FiveNumber.upper_fence d' = FiveNumber.upper_fence d
    /\ Permutation (FiveNumber.outliers d) (FiveNumber.outliers d').
Proof.
  intros H HP.
  destruct data as [|x0 t] eqn:Hd; [congruence|]. rewrite <- Hd in *.
  destruct data' as [|x0' t'] eqn:Hd'.
  { apply Permutation_sym, Permutation_nil in HP. contradiction. }
  rewrite <- Hd' in *.
  pose proof (five_number_outcome T data show x0 t Hd) as Hf. simpl in Hf.
  pose proof (five_number_outcome T data' show x0' t' Hd') as Hf'. simpl in Hf'.
  rewrite (sort_perm_eq data data' HP) in Hf'.
  destruct (fold_min_spec t x0) as [Hlo_in Hlo].
  destruct (fold_max_spec t x0) as [Hhi_in Hhi].
  destruct (fold_min_spec t' x0') as [Hlo_in' Hlo'].
  destruct (fold_max_spec t' x0') as [Hhi_in' Hhi'].
  rewrite <- Hd in Hlo_in, Hlo, Hhi_in, Hhi.
  rewrite <- Hd' in Hlo_in', Hlo', Hhi_in', Hhi'.
  assert (Emin : fold_left Rmin t' x0' = fold_left Rmin t x0).
  { apply Rle_antisym.
    - apply Hlo'. apply (Permutation_in _ HP). exact Hlo_in.
    - apply Hlo. apply (Permutation_in _ (Permutation_sym HP)). exact Hlo_in'. }
  assert (Emax : fold_left Rmax t' x0' = fold_left Rmax t x0).
  { apply Rle_antisym.
    - apply Hhi. apply (Permutation_in _ (Permutation_sym HP)). exact Hhi_in'.
    - apply Hhi'. apply (Permutation_in _ HP). exact Hhi_in. }
  rewrite Emin, Emax in Hf'.
  eexists. eexists. split; [exact Hf|]. split; [exact Hf'|].
  cbn [FiveNumber.min FiveNumber.q1 FiveNumber.median FiveNumber.q3 FiveNumber.max
       FiveNumber.iqr FiveNumber.lower_fence FiveNumber.upper_fence
       FiveNumber.outliers].
  repeat split; try reflexivity.
  apply Permutation_filter. exact HP.
Qed.

Lemma five_number_order_independent_witness :
  exists d d',
    outcome (DescriptiveStats.five_number_summary blank_text [1; 2] false) = Ok d
    /\ outcome (DescriptiveStats.five_number_summary blank_text [2; 1] false) = Ok d'
    /\ FiveNumber.min d' = FiveNumber.min d
    /\ FiveNumber.q1 d' = FiveNumber.q1 d
    /\ FiveNumber.median d' = FiveNumber.median d
    /\ FiveNumber.q3 d' = FiveNumber.q3 d
    /\ FiveNumber.max d' = FiveNumber.max d
    /\ FiveNumber.iqr d' = FiveNumber.iqr d
    /\ FiveNumber.lower_fence d' = FiveNumber.lower_fence d
    /\ FiveNumber.upper_fence d' = FiveNumber.upper_fence d
    /\ Permutation (FiveNumber.outliers d) (FiveNumber.outliers d').
Proof.
  apply (five_number_order_independent blank_text [1; 2] [2; 1] false);
    [discriminate | apply perm_swap].
Defined.

(** ** Zero variance *)

Lemma Rsum_sq_dev_zero (m : R) (l : list R) :
  Rsum (sq_dev m l) = 0 -> forall x, In x l -> x = m.
Proof.
  induction l as [|a l IH]; intros Hz x Hx; [contradiction|].
  simpl in Hz. fold (sq_dev m l) in Hz. fold (Rsum (sq_dev m l)) in Hz.
  pose proof (Rsum_sq_dev_nonneg m l) as Hn.
  pose proof (Rle_0_sqr (a - m)) as Hs. unfold Rsqr in Hs.
  assert (Ha : (a - m) * (a - m) = 0) by lra.
  assert (Hl : Rsum (sq_dev m l) = 0) by lra.
  destruct Hx as [<-|Hx]; [|apply IH; assumption].
  apply Rmult_integral in Ha. destruct Ha; lra.
Qed.

Lemma all_equal_repeat (l : list R) (c : R) :
  (forall x, In x l -> x = c) -> l = repeat c (np.len l).
Proof.
  induction l as [|a l IH]; intros Hl; [reflexivity|].
  simpl. rewrite (Hl a) by (left; reflexivity). f_equal.
  apply IH. intros y Hy. apply Hl. right; exact Hy.
Qed.

(** X9: on a sample of two or more values the variance returned by
    [measures_of_spread] is zero exactly when all values are equal, and so
    is the standard deviation; otherwise both are positive. *)
Theorem spread_zero_variance T (data : list R) (show : bool) :
  (2 <= np.len data)%nat ->
  exists d v s,
    outcome (DescriptiveStats.measures_of_spread T data show) = Ok d
    /\ Spread.variance d = Num v /\ Spread.std_dev d = Num s
    /\ 0 <= v /\ 0 <= s
    /\ (v = 0 <-> forall x y, In x data -> In y data -> x = y)
    /\ (s = 0 <-> v = 0).
Proof.
  intros Hn. destruct data as [|x0 t] eqn:Hd; [simpl in Hn; lia|]. rewrite <- Hd in *.
  eexists. exists (sample_variance data), (sample_std data).
  split; [apply (spread_outcome T data show x0 t Hd)|].
  cbn [Spread.variance Spread.std_dev].
  pose proof (sample_variance_nonneg data Hn) as Hv.
  assert (Hpos : 0 < INR (np.len data) - 1).
  { assert (2 <= INR (np.len data)) by (apply (le_INR 2); exact Hn). lra. }
  split; [apply var_Num; exact Hn|]. split; [apply std_Num; exact Hn|].
  split; [exact Hv|]. split; [apply sqrt_pos|]. split.
  - split.
    + intros Hz x y Hx Hy.
      assert (Hs : Rsum (sq_dev (Rmean data) data) = 0).
      { unfold sample_variance in Hz.
        apply Rmult_eq_reg_r with (/ (INR (np.len data) - 1)).
        - rewrite Rmult_0_l. exact Hz.
        - apply Rinv_neq_0_compat. lra. }
      rewrite (Rsum_sq_dev_zero _ _ Hs x Hx), (Rsum_sq_dev_zero _ _ Hs y Hy).
      reflexivity.
    + intros Hall.
      assert (Hx0 : In x0 data) by (rewrite Hd; left; reflexivity).
      rewrite (all_equal_repeat data x0) by (intros x Hx; apply Hall; assumption).
      apply sample_variance_repeat. lia.
  - unfold sample_std. split.
    + intros Hs. apply sqrt_eq_0; assumption.
    + intros ->. apply sqrt_0.
Qed.

Lemma spread_zero_variance_witness :
  exists d v s,
    outcome (DescriptiveStats.measures_of_spread blank_text [7; 7; 7] false) = Ok d
    /\ Spread.variance d = Num v /\ Spread.std_dev d = Num s
    /\ 0 <= v /\ 0 <= s
    /\ (v = 0 <-> forall x y, In x [7; 7; 7] -> In y [7; 7; 7] -> x = y)
    /\ (s = 0 <-> v = 0).
Proof.
  apply (spread_zero_variance blank_text [7; 7; 7] false). simpl; lia.
Defined.

(** ** The t statistic *)

Lemma sample_std_pos (data : list R) :
  sample_std data <> 0 -> 0 < sample_std data.
Proof.
  intros H. pose proof (sqrt_pos (sample_variance data)). unfold sample_std in *. lra.
Qed.

(** X10: on a sample of two or more values, with mean and standard
    deviation computed without rounding or overflow and the standard
    deviation not zero, the t statistic has the sign of
    (sample mean - mu0): positive when the mean is above mu0, negative when
    below, zero when they are equal. *)
Theorem t_statistic_sign T cdf ppf (data : list R) (mu0 : R) (alpha : fl)
    (alt : string) (show : bool) :
  (2 <= np.len data)%nat -> sample_std data <> 0 ->
  exists r t,
    outcome (HypothesisTests.one_sample_t_test T cdf ppf data (Num mu0) alpha alt show)
    = Ok r
    /\ statistic r = Num t
    /\ (0 < t <-> mu0 < Rmean data)
    /\ (t < 0 <-> Rmean data < mu0)
    /\ (t = 0 <-> Rmean data = mu0).
Proof.
  intros Hn Hs. eexists. exists (t_formula data mu0).
  split; [apply t_test_outcome|]. cbn [statistic].
  split; [apply t_stat_Num; assumption|].
  pose proof (sample_std_pos data Hs) as Hpos.
  assert (Hq : 0 < sqrt (INR (np.len data))) by (apply sqrt_INR_pos; lia).
  assert (Hd : 0 < sample_std data / sqrt (INR (np.len data))).
  { apply Rmult_lt_0_compat; [exact Hpos | apply Rinv_0_lt_compat; exact Hq]. }
  assert (Hi : 0 < / (sample_std data / sqrt (INR (np.len data))))
    by (apply Rinv_0_lt_compat; exact Hd).
  unfold t_formula, Rdiv at 1 3 5.
  set (k := / (sample_std data / sqrt (INR (np.len data)))) in *.
  repeat split; intros; nra.
Qed.

Lemma t_statistic_sign_witness :
  exists r t,
    outcome (HypothesisTests.one_sample_t_test blank_text half_cdf zero_ppf
               test_scores (Num 85) (Num 0.05) "two-sided" false) = Ok r
    /\ statistic r = Num t
    /\ (0 < t <-> 85 < Rmean test_scores)
    /\ (t < 0 <-> Rmean test_scores < 85)
    /\ (t = 0 <-> Rmean test_scores = 85).
Proof.
  apply (t_statistic_sign blank_text half_cdf zero_ppf test_scores 85 (Num 0.05)
           "two-sided"%string false).
  - unfold test_scores. simpl. lia.
  - unfold sample_std. rewrite test_scores_variance.
    destruct (sqrt_between 5 6 (2809 / 90)); lra.
Defined.

(** X11: the alternative is not validated: any string other than
    "two-sided" and "greater" is handled exactly as "less", in the returned
    result and in what is printed. *)
Theorem t_test_unknown_alternative T cdf ppf (data : list R) (mu0 alpha : fl)
    (alt : string) (show : bool) :
  alt <> "two-sided"%string -> alt <> "greater"%string ->
  HypothesisTests.one_sample_t_test T cdf ppf data mu0 alpha alt show
  = HypothesisTests.one_sample_t_test T cdf ppf data mu0 alpha "less" show.
Proof.
  intros H1 H2. unfold HypothesisTests.one_sample_t_test.
  apply String.eqb_neq in H1. apply String.eqb_neq in H2.
  rewrite H1, H2. reflexivity.
Qed.

Lemma t_test_unknown_alternative_witness :
  HypothesisTests.one_sample_t_test blank_text half_cdf zero_ppf [1; 3] (Num 0)
    (Num 0.05) "smaller" true
  = HypothesisTests.one_sample_t_test blank_text half_cdf zero_ppf [1; 3] (Num 0)
      (Num 0.05) "less" true.
Proof.
  apply (t_test_unknown_alternative blank_text half_cdf zero_ppf [1; 3] (Num 0)
           (Num 0.05) "smaller"%string true); discriminate.
Defined.

(** X12: the critical value is the quantile of the t distribution with
    [n - 1] degrees of freedom at [1 - alpha/2] for the two-sided
    alternative and at [1 - alpha] for the one-sided ones. *)
Theorem t_test_critical_value T cdf ppf (data : list R) (mu0 : fl) (a : R)
    (show : bool) :
  let df := (Z.of_nat (np.len data) - 1)%Z in
  let run := fun alt => outcome (HypothesisTests.one_sample_t_test T cdf ppf data
                                   mu0 (Num a) alt show) in
  (exists r, run "two-sided"%string = Ok r
             /\ critical_value r = Some (ppf (Num (1 - a / 2)) df))
  /\ (exists r, run "greater"%string = Ok r
                /\ critical_value r = Some (ppf (Num (1 - a)) df))
  /\ (exists r, run "less"%string = Ok r
                /\ critical_value r = Some (ppf (Num (1 - a)) df)).
Proof.
  intros df run. unfold run.
  assert (H2 : Float.div (Num a) (Num 2) = Num (a / 2)) by (apply div_Num; lra).
  repeat split; eexists; (split; [apply t_test_outcome|]);
    cbn [critical_value]; unfold critical_level; simpl String.eqb;
    rewrite ?H2; reflexivity.
Qed.

(** X13: a sample of one value gives a NaN statistic; with a distribution
    function that answers NaN to NaN the p-value is NaN as well, and the
    interpretation is "Fail to reject", whatever alpha is. *)
Theorem t_test_single_value T cdf ppf (x : R) (mu0 alpha : fl) (alt : string)
    (show : bool) :
  cdf NaN 0%Z = NaN ->
  exists r,
    outcome (HypothesisTests.one_sample_t_test T cdf ppf [x] mu0 alpha alt show) = Ok r
    /\ statistic r = NaN /\ p_value r = NaN
    /\ prefix "Fail to reject" (interpretation r) = true.
Proof.
  intros Hc. eexists. split; [apply t_test_outcome|].
  cbn [statistic p_value interpretation].
  assert (Ht : Float.div (Float.sub (np.mean [x]) mu0)
                 (Float.div (np.std [x] 1) (Float.sqrt (Float.of_nat (np.len [x]))))
               = NaN).
  { unfold np.std. rewrite var_singleton. simpl Float.sqrt at 1.
    destruct (Float.sub (np.mean [x]) mu0); reflexivity. }
  rewrite Ht. change (Z.of_nat (np.len [x]) - 1)%Z with 0%Z.
  simpl Float.abs. rewrite Hc.
  assert (Hp : (if (alt =? "two-sided")%string
                then Float.mul (Num 2) (Float.sub (Num 1) NaN)
                else if (alt =? "greater")%string then Float.sub (Num 1) NaN else NaN)
               = NaN).
  { destruct (alt =? "two-sided")%string; [reflexivity|].
    destruct (alt =? "greater")%string; reflexivity. }
  rewrite Hp. repeat split.
Qed.

Lemma t_test_single_value_witness :
  exists r,
    outcome (HypothesisTests.one_sample_t_test blank_text nan_cdf zero_ppf [5]
               (Num 3) (Num 0.05) "two-sided" false) = Ok r
    /\ statistic r = NaN /\ p_value r = NaN
    /\ prefix "Fail to reject" (interpretation r) = true.
Proof.
  apply (t_test_single_value blank_text nan_cdf zero_ppf 5 (Num 3) (Num 0.05)
           "two-sided"%string false).
  reflexivity.
Defined.

(** ** What [show_steps] changes *)

Lemma spread_output_silent T (data : list R) :
  output (DescriptiveStats.measures_of_spread T data false) = [].
Proof. destruct data; reflexivity. Qed.

Lemma five_number_output_silent T (data : list R) :
  output (DescriptiveStats.five_number_summary T data false) = [].
Proof. destruct data; reflexivity. Qed.

Lemma t_test_output_silent T cdf ppf (data : list R) (mu0 alpha : fl) (alt : string) :
  output (HypothesisTests.one_sample_t_test T cdf ppf data mu0 alpha alt false) = [].
Proof. reflexivity. Qed.

(** X14: [show_steps] only switches the printing of the descriptive
    statistics: without it nothing is printed, and on a non-empty sample the
    returned result is the same with and without it. *)
Theorem descriptive_show_steps_only_prints T (data : list R) :
  (output (DescriptiveStats.measures_of_center T data false) = []
   /\ output (DescriptiveStats.measures_of_spread T data false) = []
   /\ output (DescriptiveStats.five_number_summary T data false) = [])
  /\ (data <> [] ->
      outcome (DescriptiveStats.measures_of_center T data true)
      = outcome (DescriptiveStats.measures_of_center T data false)
      /\ outcome (DescriptiveStats.measures_of_spread T data true)
         = outcome (DescriptiveStats.measures_of_spread T data false)
      /\ outcome (DescriptiveStats.five_number_summary T data true)
         = outcome (DescriptiveStats.five_number_summary T data false)
      /\ exists d, outcome (DescriptiveStats.measures_of_center T data true) = Ok d).
Proof.
  split.
  - split; [apply center_output_silent|].
    split; [apply spread_output_silent | apply five_number_output_silent].
  - intros H.
    destruct (center_outcome T data true H) as (mc & Hmc & Hd).
    destruct (center_outcome T data false H) as (mc' & Hmc' & Hd').
    assert (E : mc' = mc) by congruence. subst mc'.
    destruct data as [|x0 t] eqn:Hdata; [congruence|]. rewrite <- Hdata in *.
    split; [rewrite Hd, Hd'; reflexivity|].
    split.
    { rewrite (spread_outcome T data true x0 t Hdata),
        (spread_outcome T data false x0 t Hdata). reflexivity. }
    split.
    { rewrite (five_number_outcome T data true x0 t Hdata),
        (five_number_outcome T data false x0 t Hdata). reflexivity. }
    eexists. exact Hd.
Qed.

Lemma descriptive_show_steps_only_prints_witness :
  outcome (DescriptiveStats.measures_of_center blank_text [2; 9] true)
  = outcome (DescriptiveStats.measures_of_center blank_text [2; 9] false)
  /\ outcome (DescriptiveStats.measures_of_spread blank_text [2; 9] true)
     = outcome (DescriptiveStats.measures_of_spread blank_text [2; 9] false)
  /\ outcome (DescriptiveStats.five_number_summary blank_text [2; 9] true)
     = outcome (DescriptiveStats.five_number_summary blank_text [2; 9] false)
  /\ exists d, outcome (DescriptiveStats.measures_of_center blank_text [2; 9] true) = Ok d.
Proof.
  apply (proj2 (descriptive_show_steps_only_prints blank_text [2; 9])). discriminate.
Defined.

(** X15: [show_steps] only switches the printing of the t-test: without it
    nothing is printed, and the returned result is the same with and without
    it, on every input. *)
Theorem t_test_show_steps_only_prints T cdf ppf (data : list R) (mu0 alpha : fl)
    (alt : string) :
  output (HypothesisTests.one_sample_t_test T cdf ppf data mu0 alpha alt false) = []
  /\ outcome (HypothesisTests.one_sample_t_test T cdf ppf data mu0 alpha alt true)
     = outcome (HypothesisTests.one_sample_t_test T cdf ppf data mu0 alpha alt false).
Proof.
  split; [reflexivity|]. rewrite !t_test_outcome. reflexivity.
Qed.

(** ** The printed decision *)

Ltac other_line :=
  unfold nl, evidence_line, no_evidence_line;
  repeat match goal with
         | |- context [if ?b then _ else _] => destruct b
         end;
  simpl; intuition discriminate.

Ltac skip_block :=
  rewrite in_output_then by (first [io_ok | other_line]).

(** X16: with [show_steps] the t-test prints "Evidence suggests ..." exactly
    when the p-value is strictly below alpha, that is when the
    interpretation says "Reject", and "Insufficient evidence ..." exactly in
    the other case. *)
Theorem t_test_printed_decision T cdf ppf (data : list R) (mu0 alpha : fl)
    (alt : string) :
  let run := HypothesisTests.one_sample_t_test T cdf ppf data mu0 alpha alt true in
  exists r,
    outcome run = Ok r
    /\ (In evidence_line (output run) <-> Float.lt (p_value r) alpha)
    /\ (In evidence_line (output run) <-> prefix "Reject" (interpretation r) = true)
    /\ (In no_evidence_line (output run) <-> ~ Float.lt (p_value r) alpha).
Proof.
  intros run.
  eexists. split; [apply t_test_outcome|]. cbn [p_value interpretation].
  match goal with |- context [Float.ltb ?p alpha] => set (pv := p) end.
  pose proof (ltb_lt pv alpha) as Hlt.
  pose proof (ltb_not_lt pv alpha) as Hnlt.
  assert (Hev : In evidence_line (output run) <-> Float.ltb pv alpha = true).
  { unfold run, HypothesisTests.one_sample_t_test.
    do 4 skip_block. fold pv.
    rewrite output_bind, in_app_iff. unfold when_ at 1.
    do 2 skip_block.
    destruct (Float.ltb pv alpha); simpl.
    - unfold evidence_line. intuition discriminate.
    - unfold evidence_line. intuition discriminate. }
  assert (Hno : In no_evidence_line (output run) <-> Float.ltb pv alpha = false).
  { unfold run, HypothesisTests.one_sample_t_test.
    do 4 skip_block. fold pv.
    rewrite output_bind, in_app_iff. unfold when_ at 1.
    do 2 skip_block.
    destruct (Float.ltb pv alpha); simpl.
    - unfold no_evidence_line. intuition discriminate.
    - unfold no_evidence_line. intuition discriminate. }
  rewrite Hev, Hno.
  split; [exact Hlt|]. split; [|exact Hnlt].
  destruct (Float.ltb pv alpha); simpl; intuition congruence.
Qed.

(** ** Shifting the sample *)

Lemma Rsum_shift (c : R) (l : list R) :
  Rsum (map (fun x => x + c) l) = Rsum l + INR (np.len l) * c.
Proof.
  induction l as [|a l IH]; [simpl; lra|].
  change (np.len (a :: l)) with (S (np.len l)). rewrite S_INR.
  simpl map. change (Rsum ((a + c) :: map (fun x => x + c) l))
    with (a + c + Rsum (map (fun x => x + c) l)).
  change (Rsum (a :: l)) with (a + Rsum l). rewrite IH. lra.
Qed.

Lemma len_map_shift (c : R) (l : list R) : np.len (map (fun x => x + c) l) = np.len l.
Proof. unfold np.len. apply length_map. Qed.

Lemma Rmean_shift (c : R) (l : list R) :
  l <> [] -> Rmean (map (fun x => x + c) l) = Rmean l + c.
Proof.
  intros H. unfold Rmean. rewrite Rsum_shift, len_map_shift.
  pose proof (INR_len_pos l H). field. lra.
Qed.

Lemma sq_dev_shift (m c : R) (l : list R) :
  sq_dev (m + c) (map (fun x => x + c) l) = sq_dev m l.
Proof.
  unfold sq_dev. rewrite map_map. apply map_ext. intros a. ring.
Qed.

Lemma sample_variance_shift (c : R) (l : list R) :
  l <> [] -> sample_variance (map (fun x => x + c) l) = sample_variance l.
Proof.
  intros H. unfold sample_variance.
  rewrite Rmean_shift by exact H. rewrite sq_dev_shift, len_map_shift. reflexivity.
Qed.

(** X17: on a sample of two or more values, computed without rounding, the
    t-test does not depend on the origin of the scale: adding the same
    constant to every value and to mu0 gives the same result. *)
Theorem t_test_shift_invariant T cdf ppf (data : list R) (mu0 c : R) (alpha : fl)
    (alt : string) (show : bool) :
  (2 <= np.len data)%nat ->
  outcome (HypothesisTests.one_sample_t_test T cdf ppf (map (fun x => x + c) data)
             (Num (mu0 + c)) alpha alt show)
  = outcome (HypothesisTests.one_sample_t_test T cdf ppf data (Num mu0) alpha alt show).
Proof.
  intros Hn.
  assert (Hne : data <> []) by (apply len_ge_2_nonempty; exact Hn).
  assert (Hn' : (2 <= np.len (map (fun x => (x + c)%R) data))%nat)
    by (rewrite len_map_shift; exact Hn).
  rewrite !t_test_outcome.
  rewrite (mean_Num (map (fun x => x + c) data))
    by (apply len_ge_2_nonempty; exact Hn').
  rewrite (std_Num (map (fun x => x + c) data)) by exact Hn'.
  rewrite (mean_Num data) by exact Hne. rewrite (std_Num data) by exact Hn.
  unfold sample_std. rewrite sample_variance_shift by exact Hne.
  rewrite Rmean_shift by exact Hne. rewrite len_map_shift.
  replace (Float.sub (Num (Rmean data + c)) (Num (mu0 + c)))
    with (Float.sub (Num (Rmean data)) (Num mu0))
    by (simpl; f_equal; lra).
  reflexivity.
Qed.

Lemma t_test_shift_invariant_witness :
  outcome (HypothesisTests.one_sample_t_test blank_text half_cdf zero_ppf
             (map (fun x => x + 10) [1; 3]) (Num (0 + 10)) (Num 0.05) "less" false)
  = outcome (HypothesisTests.one_sample_t_test blank_text half_cdf zero_ppf
               [1; 3] (Num 0) (Num 0.05) "less" false).
Proof.
  apply (t_test_shift_invariant blank_text half_cdf zero_ppf [1; 3] 0 10 (Num 0.05)
           "less"%string false).
  simpl; lia.
Defined.

(** ** The sample data demonstration *)

(** X18: the demonstration never raises, whatever the distribution functions
    and the text conversions are: it prints its heading, then all that the
    three descriptive analyses print on the built-in scores, in order, then
    the heading of the test and all that the t-test against 85 prints. *)
Theorem sample_data_demo_completes T cdf ppf :
  let scores := [85; 92; 78; 88; 95; 82; 79; 91; 87; 84] in
  outcome (StatsCLI.sample_data_demo T cdf ppf) = Ok tt
  /\ output (StatsCLI.sample_data_demo T cdf ppf)
     = ([(nl ++ "=== SAMPLE DATA DEMONSTRATION ===")%string;
         ("Using sample test scores: " ++ str_array T (np.array scores))%string;
         (nl ++ "Running complete analysis...")%string]
        ++ output (DescriptiveStats.measures_of_center T scores true)
        ++ output (DescriptiveStats.measures_of_spread T scores true)
        ++ output (DescriptiveStats.five_number_summary T scores true)
        ++ [(nl ++ str_mul "=" 50)%string;
            "HYPOTHESIS TEST EXAMPLE"%string;
            "Testing if mean test score = 85"%string;
            str_mul "=" 50]
        ++ output (HypothesisTests.one_sample_t_test T cdf ppf scores (Num 85)
                     (Num 0.05) "two-sided" true))%list.
Proof.
  intros scores.
  assert (Hne : scores <> []) by discriminate.
  destruct (center_outcome T scores true Hne) as (mc & _ & Hc).
  pose proof (spread_outcome T scores true 85 (tl scores) eq_refl) as Hs.
  pose proof (five_number_outcome T scores true 85 (tl scores) eq_refl) as Hf.
  simpl in Hf.
  pose proof (t_test_outcome T cdf ppf scores (Num 85) (Num 0.05) "two-sided" true) as Ht.
  simpl in Ht.
  unfold StatsCLI.sample_data_demo. fold scores. split.
  - do 3 (rewrite outcome_then by reflexivity).
    rewrite outcome_bind, Hc. rewrite outcome_bind, Hs. rewrite outcome_bind, Hf.
    do 4 (rewrite outcome_then by reflexivity).
    rewrite outcome_bind, Ht. reflexivity.
  - do 3 (rewrite output_bind; cbn [outcome output print fst snd]).
    rewrite output_bind, Hc. rewrite output_bind, Hs. rewrite output_bind, Hf.
    do 4 (rewrite output_bind; cbn [outcome output print fst snd]).
    rewrite output_bind, Ht. cbn [output ret fst].
    rewrite app_nil_r. reflexivity.
Qed.

(** ** The data management menu *)

Lemma print_numbered_spec (i : nat) (names stdin : list string) :
  StatsCLI.print_numbered i names stdin
  = (map (fun p => (str_nat (fst p) ++ ". " ++ snd p)%string)
         (combine (seq i (List.length names)) names),
     stdin, Return tt).
Proof.
  revert i; induction names as [|name rest IH]; intros i; [reflexivity|].
  simpl. unfold cbind, cprint. rewrite IH. reflexivity.
Qed.

(** X19: in the data management menu only choice 1 does anything: after any
    other choice, "2" (save current data) and "3" (load saved data)
    included, the menu returns having printed its four lines and the prompt
    and read one line; at the end of the input it raises [EOFError]. *)
Theorem data_management_other_choices strip (saved_data : list string) :
  let menu := [(nl ++ "=== DATA MANAGEMENT ===")%string;
               "1. List saved data"%string;
               "2. Save current data"%string;
               "3. Load saved data"%string;
               "Enter choice (1-3): "%string] in
  (forall line rest,
      strip line <> "1"%string ->
      StatsCLI.data_management_menu strip saved_data (line :: rest)
      = (menu, rest, Return tt))
  /\ StatsCLI.data_management_menu strip saved_data [] = (menu, [], Throw EOFError).
Proof.
  intros menu. split.
  - intros line rest Hc. apply String.eqb_neq in Hc.
    unfold StatsCLI.data_management_menu, cbind, cprint, input, cret.
    rewrite Hc. reflexivity.
  - reflexivity.
Qed.

Lemma data_management_other_choices_witness :
  StatsCLI.data_management_menu (fun s => s) ["scores"%string]
    ["2"%string; "0"%string]
  = ([(nl ++ "=== DATA MANAGEMENT ===")%string;
      "1. List saved data"%string;
      "2. Save current data"%string;
      "3. Load saved data"%string;
      "Enter choice (1-3): "%string],
     ["0"%string], Return tt).
Proof.
  apply (proj1 (data_management_other_choices (fun s => s) ["scores"%string])
           "2"%string ["0"%string]).
  discriminate.
Defined.

Lemma nth_error_combine_seq (k : nat) (l : list string) (i : nat) (name : string) :
  nth_error l i = Some name ->
  nth_error (combine (seq k (List.length l)) l) i = Some ((k + i)%nat, name).
Proof.
  revert k i; induction l as [|a l IH]; intros k i Hi; destruct i as [|i];
    simpl in *; try discriminate.
  - inversion Hi. rewrite Nat.add_0_r. reflexivity.
  - rewrite (IH (S k) i Hi). f_equal. f_equal. lia.
Qed.

(** X20: choice 1 of the data management menu lists the saved datasets after
    the line "Saved datasets:", one per line, numbered from 1 in the order
    of the listing, or prints "No saved data found." when there is none. *)
Theorem data_management_list strip (saved_data : list string) (line : string)
    (rest : list string) :
  strip line = "1"%string ->
  let menu := [(nl ++ "=== DATA MANAGEMENT ===")%string;
               "1. List saved data"%string;
               "2. Save current data"%string;
               "3. Load saved data"%string;
               "Enter choice (1-3): "%string] in
  let numbered :=
    map (fun p => (str_nat (fst p) ++ ". " ++ snd p)%string)
        (combine (seq 1 (List.length saved_data)) saved_data) in
  StatsCLI.data_management_menu strip saved_data (line :: rest)
  = ((menu ++ match saved_data with
              | [] => ["No saved data found."%string]
              | _ :: _ => "Saved datasets:"%string :: numbered
              end)%list,
     rest, Return tt)
  /\ List.length numbered = List.length saved_data
  /\ forall i name, nth_error saved_data i = Some name ->
                    nth_error numbered i = Some (str_nat (S i) ++ ". " ++ name)%string.
Proof.
  intros Hc menu numbered. split; [|split].
  - cbv beta iota delta [StatsCLI.data_management_menu cbind cprint input cret].
    rewrite Hc.
    destruct saved_data as [|n0 ns]; [reflexivity|].
    cbv zeta. change (("1" =? "1")%string) with true. cbv beta iota.
    rewrite print_numbered_spec. reflexivity.
  - unfold numbered. rewrite length_map, length_combine, length_seq. lia.
  - intros i name Hi. unfold numbered.
    rewrite nth_error_map.
    rewrite (nth_error_combine_seq 1 saved_data i name Hi). reflexivity.
Qed.

Lemma data_management_list_witness :
  StatsCLI.data_management_menu (fun s => s) ["a"%string; "b"%string] ["1"%string]
  = ([(nl ++ "=== DATA MANAGEMENT ===")%string;
      "1. List saved data"%string;
      "2. Save current data"%string;
      "3. Load saved data"%string;
      "Enter choice (1-3): "%string;
      "Saved datasets:"%string; "1. a"%string; "2. b"%string],
     [], Return tt).
Proof.
  exact (proj1 (data_management_list (fun s => s) ["a"%string; "b"%string]
                  "1"%string [] eq_refl)).
Defined.

(** ** How many modes *)

(** X21: on a non-empty sample [measures_of_center] returns at least one
    mode, every mode is a value of the sample, and there are as many modes
    as values exactly when no value is repeated. *)
Theorem center_mode_count T (data : list R) (show : bool) :
  data <> [] ->
  exists d,
    outcome (DescriptiveStats.measures_of_center T data show) = Ok d
    /\ Center.mode d <> []
    /\ incl (Center.mode d) data
    /\ (np.len (Center.mode d) <= np.len data)%nat
    /\ (np.len (Center.mode d) = np.len data <-> NoDup data).
Proof.
  intros H.
  destruct (max_count_unique data H) as (mc & Hmc & (x0 & Hx0 & Hc0) & Hmax).
  destruct (center_mode_value T data show mc H Hmc) as (d & Hd & Hm).
  destruct (modes_spec data mc H Hmc) as (Hs & Hin & Hall & Hlen).
  exists d. rewrite Hm. split; [exact Hd|].
  assert (Hincl : incl (DescriptiveStats.select_modes (np.unique data) mc) data).
  { intros x Hx. apply Hin in Hx. destruct Hx; assumption. }
  split; [|split; [exact Hincl|split]].
  - assert (Hx : In x0 (DescriptiveStats.select_modes (np.unique data) mc)).
    { apply Hin. split; [exact Hx0|]. intros y. rewrite Hc0. apply Hmax. }
    intros E. rewrite E in Hx. contradiction.
  - apply NoDup_incl_length; [apply strictly_sorted_nodup; exact Hs | exact Hincl].
  - split; [exact Hlen|]. intros Hnd. rewrite (Hall Hnd). apply sort_len.
Qed.

Lemma center_mode_count_witness :
  exists d,
    outcome (DescriptiveStats.measures_of_center blank_text [2; 2; 7] false) = Ok d
    /\ Center.mode d <> []
    /\ incl (Center.mode d) [2; 2; 7]
    /\ (np.len (Center.mode d) <= np.len [2; 2; 7])%nat
    /\ (np.len (Center.mode d) = np.len [2; 2; 7] <-> NoDup [2; 2; 7]).
Proof.
  apply (center_mode_count blank_text [2; 2; 7] false). discriminate.
Defined.

(** ** The quick test *)

Lemma test_scores_sorted :
  np.sort test_scores = [78; 79; 82; 84; 85; 87; 88; 91; 92; 95].
Proof.
  unfold np.sort, test_scores. cbn [fold_right np.insert].
  repeat (r_eval; cbn [np.insert]). reflexivity.
Qed.

Lemma test_scores_median : np.median test_scores = Num 86.
Proof.
  rewrite median_Num by discriminate. rewrite test_scores_sorted.
  unfold middle. simpl. f_equal. lra.
Qed.

(** X22: the quick test never raises, whatever the distribution functions
    and the text conversions are; the values it prints are the mean 86.1,
    the median 86, a t statistic between 0.6226 and 0.6227 and the two-sided
    p-value read at that statistic with 9 degrees of freedom. *)
Theorem quick_test_completes T cdf ppf :
  outcome (QuickTest.test_basic_functionality T cdf ppf) = Ok tt
  /\ exists t,
       0.6226 < t < 0.6227
       /\ output (QuickTest.test_basic_functionality T cdf ppf)
          = ["Testing Statistics Toolkit..."%string;
             (nl ++ "1. Testing Descriptive Statistics:")%string;
             ("   Mean: " ++ fixed T 2 (Num (861 / 10)))%string;
             ("   Median: " ++ fixed T 2 (Num 86))%string;
             (nl ++ "2. Testing Hypothesis Test:")%string;
             ("   t-statistic: " ++ fixed T 4 (Num t))%string;
             ("   p-value: "
                ++ fixed T 6 (Float.mul (Num 2)
                                (Float.sub (Num 1) (cdf (Num t) 9%Z))))%string;
             (nl ++ "✅ All basic functionality working!")%string;
             (nl ++ "Ready to use! Try:")%string;
             "  python stats_cli.py"%string].
Proof.
  assert (Hne : test_scores <> []) by discriminate.
  destruct (center_outcome T test_scores false Hne) as (mc & _ & Hc).
  pose proof (t_test_outcome T cdf ppf test_scores (Num 85) (Num 0.05) "two-sided" false)
    as Ht.
  cbv zeta in Ht.
  assert (Hstat : Float.div (Float.sub (np.mean test_scores) (Num 85))
                    (Float.div (np.std test_scores 1)
                       (Float.sqrt (Float.of_nat (np.len test_scores))))
                  = Num (t_formula test_scores 85)).
  { apply t_stat_Num; [unfold test_scores; simpl; lia|].
    unfold sample_std. rewrite test_scores_variance.
    destruct (sqrt_between 5 6 (2809 / 90)); lra. }
  rewrite Hstat in Ht.
  pose proof test_scores_t as [T1 T2].
  unfold QuickTest.test_basic_functionality. fold test_scores.
  split.
  - do 2 (rewrite outcome_then by reflexivity).
    rewrite outcome_bind, Hc.
    do 3 (rewrite outcome_then by reflexivity).
    rewrite outcome_bind, Ht. reflexivity.
  - exists (t_formula test_scores 85). split; [split; assumption|].
    do 2 (rewrite output_bind; cbn [outcome output print fst snd]).
    rewrite output_bind, Hc, center_output_silent.
    do 3 (rewrite output_bind; cbn [outcome output print fst snd]).
    rewrite output_bind, Ht, t_test_output_silent.
    cbn [Center.mean Center.median statistic p_value].
    rewrite (mean_Num test_scores Hne), test_scores_mean, test_scores_median.
    replace (Float.abs (Num (t_formula test_scores 85)))
      with (Num (t_formula test_scores 85))
      by (simpl; f_equal; symmetry; apply Rabs_pos_eq; lra).
    change (Z.of_nat (np.len test_scores) - 1)%Z with 9%Z.
    reflexivity.
Qed.

(** ** The test statistic on float64 *)

Lemma pairwise_sum_eq (fuel : nat) (a : list float) :
  F64.pairwise_sum fuel a =
  let n := List.length a in
  if (n <? 8)%nat then fold_left PrimFloat.add a PrimFloat.neg_zero
  else if (n <=? 128)%nat then
    let (r, rest) := F64.add_blocks (n / 8 - 1) (firstn 8 a) (skipn 8 a) in
    fold_left PrimFloat.add rest (F64.combine8 r)
  else
    match fuel with
    | O => PrimFloat.nan
    | S fuel' =>
        let n2 := (n / 2 - (n / 2) mod 8)%nat in
        PrimFloat.add (F64.pairwise_sum fuel' (firstn n2 a))
                      (F64.pairwise_sum fuel' (skipn n2 a))
    end.
Proof. destruct fuel; reflexivity. Qed.

(** The summation never runs out of fuel: any two amounts of fuel that
    reach the length of the array give the same sum. *)
Lemma pairwise_sum_fuel (f1 : nat) :
  forall f2 a, (List.length a <= f1)%nat -> (List.length a <= f2)%nat ->
               F64.pairwise_sum f1 a = F64.pairwise_sum f2 a.
Proof.
  induction f1 as [|f1 IH]; intros f2 a H1 H2; rewrite !pairwise_sum_eq; cbv zeta.
  - destruct (Nat.ltb_spec (List.length a) 8) as [_|H]; [reflexivity|lia].
  - destruct (Nat.ltb_spec (List.length a) 8) as [_|H8]; [reflexivity|].
    destruct (Nat.leb_spec (List.length a) 128) as [_|H128]; [reflexivity|].
    destruct f2 as [|f2]; [lia|].
    set (n2 := (List.length a / 2 - (List.length a / 2) mod 8)%nat).
    assert (Hlo : (1 <= n2)%nat) by (unfold n2; dlia).
    assert (Hhi : (n2 < List.length a)%nat) by (unfold n2; dlia).
    f_equal; apply IH.
    + rewrite length_firstn. lia.
    + rewrite length_firstn. lia.
    + rewrite length_skipn. lia.
    + rewrite length_skipn. lia.
Qed.

(** X23: on float64, with numpy's order of operations, the sample of the
    demonstration has mean 86.099999999999994 and standard deviation
    5.5866905329641376, and for [mu0 = 85] the statistic of
    [one_sample_t_test] is 0.62264150943395902, between 0.6216 and
    0.6236. *)
Theorem t_statistic_demo_float64 :
  F64.mean F64.test_scores = 0x1.5866666666666p+6%float
  /\ F64.std F64.test_scores 1 = 0x1.658c5672fd0acp+2%float
  /\ F64.t_stat F64.test_scores 85%float = 0x1.3ecade304d46ap-1%float
  /\ PrimFloat.ltb (PrimFloat.div 6216%float 10000%float)
                   (F64.t_stat F64.test_scores 85%float) = true
  /\ PrimFloat.ltb (F64.t_stat F64.test_scores 85%float)
                   (PrimFloat.div 6236%float 10000%float) = true.
Proof. repeat split; vm_compute; reflexivity. Qed.
